(** * Whiteboard: stroke synchronisation and canvas replay

    A shallow embedding of [src/components/Whiteboard.tsx].  The React
    component is read as a state machine: the component state and the
    refs make up the record [State], and every event handler of the
    component is a function on [State].

    - JavaScript numbers are IEEE 754 doubles: Rocq's primitive [float].
      [Date.now()] is an integer number of milliseconds, kept in [Z].
    - The 2D canvas context is the record [Context2D]: the drawing state
      the source assigns, the current path, and the bitmap.  The bitmap is
      kept symbolically ([Raster]): what was painted, with which brush,
      in which order.
    - A handler runs on the state committed by the handlers before it;
      the part of an [async] handler after its [await] is a handler of its
      own, run when the promise settles.
    - Toasts are kept as a log in the state; [console.error] output and
      the markup are left out.
    - The context checks what is assigned to it: a [lineWidth] that is not
      a positive finite number and a [strokeStyle] that is not a colour
      are ignored, the property keeping its value.  Which strings are
      colours is the browser's business ([Browser]); the properties hold
      for every browser. *)

From Stdlib Require Import Bool Ascii String List ZArith Lia PrimFloat DecimalString.
Import ListNotations.

Local Open Scope string_scope.
Local Open Scope list_scope.

(** ** Data model *)

Definition number : Type := float.

Record Point : Type := mkPoint { x : number; y : number }.

(** [type: 'draw' | 'erase'] *)
Inductive StrokeType : Type := draw_type | erase_type.

Module DrawingData.
Record t : Type := mk {
  id : string;
  type : StrokeType;
  points : list Point;
  color : string;
  size : number;
  timestamp : Z
}.
End DrawingData.

Module User.
Record Metadata : Type := mkMetadata {
  displayName : option string;
  cursor : option Point
}.
Record t : Type := mk {
  userId : string;
  metadata : option Metadata
}.
End User.

Module AuthUser.
Record t : Type := mk {
  id : string;
  email : option string;
  displayName : option string
}.
End AuthUser.

(** What travels as [data]: a stroke for a draw message, [{}] for a clear
    message. *)
Inductive Payload : Type :=
| DrawPayload (d : DrawingData.t)
| EmptyPayload.

(** A channel message as [onMessage] receives it; [publish(type, data,
    {userId})] sends one. *)
Module Message.
Record t : Type := mk {
  type : string;
  userId : string;
  data : Payload
}.
End Message.

Inductive Tool : Type := pen | eraser.

(** ** The canvas *)

Inductive CompositeOp : Type := source_over | destination_out.
Inductive LineCap : Type := cap_butt | cap_round | cap_square.
Inductive LineJoin : Type := join_miter | join_round | join_bevel.

Inductive PathCmd : Type :=
| MoveTo (p : Point)
| LineTo (p : Point).

(** The drawing state a [stroke()] call paints with. *)
Record Brush : Type := mkBrush {
  brush_op : CompositeOp;
  brush_style : string;
  brush_width : number;
  brush_cap : LineCap;
  brush_join : LineJoin
}.

(** The bitmap.  [Transparent]: every pixel transparent black (a fresh
    canvas).  [Solid c]: every pixel the opaque colour [c].  [Stroked r b
    p]: the path [p] stroked with brush [b] over [r]. *)
Inductive Raster : Type :=
| Transparent
| Solid (fill : string)
| Stroked (under : Raster) (b : Brush) (p : list PathCmd).

Record Context2D : Type := mkContext2D {
  globalCompositeOperation : CompositeOp;
  strokeStyle : string;
  lineWidth : number;
  lineCap : LineCap;
  lineJoin : LineJoin;
  fillStyle : string;
  path : list PathCmd;
  bitmap : Raster
}.

(** A context as the browser hands it out for a canvas whose size was just
    set. *)
Definition freshContext : Context2D :=
  {| globalCompositeOperation := source_over;
     strokeStyle := "#000000";
     lineWidth := 1%float;
     lineCap := cap_butt;
     lineJoin := join_miter;
     fillStyle := "#000000";
     path := [];
     bitmap := Transparent |}.

Definition set_globalCompositeOperation (v : CompositeOp) (c : Context2D) : Context2D :=
  {| globalCompositeOperation := v; strokeStyle := strokeStyle c;
     lineWidth := lineWidth c; lineCap := lineCap c; lineJoin := lineJoin c;
     fillStyle := fillStyle c; path := path c; bitmap := bitmap c |}.

(** The browser's colour parser: for a string that is a CSS colour, the
    colour as the context reports it back; [None] for any other string. *)
Class Browser : Type := { parseColor : string -> option string }.

(** [ctx.strokeStyle = v]: a string that does not parse as a colour is
    ignored. *)
Definition set_strokeStyle {browser : Browser} (v : string) (c : Context2D)
  : Context2D :=
  match parseColor v with
  | Some col =>
      {| globalCompositeOperation := globalCompositeOperation c;
         strokeStyle := col; lineWidth := lineWidth c; lineCap := lineCap c;
         lineJoin := lineJoin c; fillStyle := fillStyle c; path := path c;
         bitmap := bitmap c |}
  | None => c
  end.

(** The line widths a context accepts: positive and finite (not zero, not
    negative, not infinite, not NaN). *)
Definition validLineWidth (v : number) : bool :=
  (0 <? v)%float && (v <? infinity)%float.

(** [ctx.lineWidth = v]: a value that is not a valid line width is
    ignored. *)
Definition set_lineWidth (v : number) (c : Context2D) : Context2D :=
  if validLineWidth v then
    {| globalCompositeOperation := globalCompositeOperation c;
       strokeStyle := strokeStyle c; lineWidth := v; lineCap := lineCap c;
       lineJoin := lineJoin c; fillStyle := fillStyle c; path := path c;
       bitmap := bitmap c |}
  else c.

Definition set_lineCap (v : LineCap) (c : Context2D) : Context2D :=
  {| globalCompositeOperation := globalCompositeOperation c;
     strokeStyle := strokeStyle c; lineWidth := lineWidth c; lineCap := v;
     lineJoin := lineJoin c; fillStyle := fillStyle c; path := path c;
     bitmap := bitmap c |}.

Definition set_lineJoin (v : LineJoin) (c : Context2D) : Context2D :=
  {| globalCompositeOperation := globalCompositeOperation c;
     strokeStyle := strokeStyle c; lineWidth := lineWidth c;
     lineCap := lineCap c; lineJoin := v; fillStyle := fillStyle c;
     path := path c; bitmap := bitmap c |}.

(** [ctx.fillStyle = v].  The source assigns one value only, the literal
    ['#ffffff'], which is a colour and is reported back as written. *)
Definition set_fillStyle (v : string) (c : Context2D) : Context2D :=
  {| globalCompositeOperation := globalCompositeOperation c;
     strokeStyle := strokeStyle c; lineWidth := lineWidth c;
     lineCap := lineCap c; lineJoin := lineJoin c; fillStyle := v;
     path := path c; bitmap := bitmap c |}.

Definition set_path (v : list PathCmd) (c : Context2D) : Context2D :=
  {| globalCompositeOperation := globalCompositeOperation c;
     strokeStyle := strokeStyle c; lineWidth := lineWidth c;
     lineCap := lineCap c; lineJoin := lineJoin c; fillStyle := fillStyle c;
     path := v; bitmap := bitmap c |}.

Definition set_bitmap (v : Raster) (c : Context2D) : Context2D :=
  {| globalCompositeOperation := globalCompositeOperation c;
     strokeStyle := strokeStyle c; lineWidth := lineWidth c;
     lineCap := lineCap c; lineJoin := lineJoin c; fillStyle := fillStyle c;
     path := path c; bitmap := v |}.

Definition beginPath (c : Context2D) : Context2D := set_path [] c.

Definition moveTo (p : Point) (c : Context2D) : Context2D :=
  set_path (path c ++ [MoveTo p]) c.

Definition lineTo (p : Point) (c : Context2D) : Context2D :=
  set_path (path c ++ [LineTo p]) c.

Definition brushOf (c : Context2D) : Brush :=
  {| brush_op := globalCompositeOperation c;
     brush_style := strokeStyle c;
     brush_width := lineWidth c;
     brush_cap := lineCap c;
     brush_join := lineJoin c |}.

(** [ctx.stroke()]: the current path, painted with the current drawing
    state. *)
Definition stroke (c : Context2D) : Context2D :=
  set_bitmap (Stroked (bitmap c) (brushOf c) (path c)) c.

(** [ctx.fillRect(0, 0, canvas.width, canvas.height)] with an opaque fill
    style (the source only ever fills with ['#ffffff']).  The rectangle
    covers every pixel, and it is composited like any other drawing:
    under [source-over] the fill replaces what was there, under
    [destination-out] an opaque source removes what was there and leaves
    the pixels transparent. *)
Definition fillRectCanvas (c : Context2D) : Context2D :=
  match globalCompositeOperation c with
  | source_over => set_bitmap (Solid (fillStyle c)) c
  | destination_out => set_bitmap Transparent c
  end.

(** The canvas element: its place in the viewport
    ([getBoundingClientRect()]) and its 2D context ([getContext('2d')],
    which may be [null]). *)
Record Canvas : Type := mkCanvas {
  rect_left : number;
  rect_top : number;
  context2d : option Context2D
}.

(** The points the lines of a path go to, in order. *)
Fixpoint lineToPoints (p : list PathCmd) : list Point :=
  match p with
  | [] => []
  | MoveTo _ :: rest => lineToPoints rest
  | LineTo q :: rest => q :: lineToPoints rest
  end.

(** ** Pointer events *)

Record Client : Type := mkClient { clientX : number; clientY : number }.

(** A mouse event carries one position; a touch event carries its
    [touches] list, of which the handlers read [touches[0]]. *)
Inductive PointerEvent : Type :=
| MouseEvent (pos : Client)
| TouchEvent (touch0 : Client) (others : list Client).

Definition pointerClient (e : PointerEvent) : Client :=
  match e with
  | MouseEvent pos => pos
  | TouchEvent touch0 _ => touch0
  end.

(** ** The channel *)

(** The realtime channel, seen from this replica: its name, the presence
    entry it was subscribed with, and the [publish] calls made on it, oldest
    first. *)
Record Channel : Type := mkChannel {
  channelName : string;
  subscription : option User.t;
  published : list Message.t
}.

Definition subscribe (u : User.t) (ch : Channel) : Channel :=
  {| channelName := channelName ch; subscription := Some u;
     published := published ch |}.

Definition unsubscribe (ch : Channel) : Channel :=
  {| channelName := channelName ch; subscription := None;
     published := published ch |}.

Definition publish (type : string) (data : Payload) (userId : string)
  (ch : Channel) : Channel :=
  {| channelName := channelName ch; subscription := subscription ch;
     published := published ch ++ [Message.mk type userId data] |}.

(** How a promise settles. *)
Inductive Settled : Type := Fulfilled | Rejected.

Inductive Toast : Type :=
| toast_success (msg : string)
| toast_error (msg : string).

(** ** Component state *)

Record State : Type := mkState {
  isDrawing : bool;
  tool : Tool;
  color : string;
  size : number;
  currentStroke : list Point;
  onlineUsers : list User.t;
  isConnected : bool;
  drawingHistory : list DrawingData.t;   (* drawingHistory.current *)
  channelRef : option Channel;           (* channelRef.current *)
  canvasRef : option Canvas;             (* canvasRef.current *)
  isMounted : bool;
  toasts : list Toast
}.

Definition setIsDrawing (v : bool) (s : State) : State :=
  mkState v (tool s) (color s) (size s) (currentStroke s) (onlineUsers s)
    (isConnected s) (drawingHistory s) (channelRef s) (canvasRef s)
    (isMounted s) (toasts s).

Definition setTool (v : Tool) (s : State) : State :=
  mkState (isDrawing s) v (color s) (size s) (currentStroke s) (onlineUsers s)
    (isConnected s) (drawingHistory s) (channelRef s) (canvasRef s)
    (isMounted s) (toasts s).

Definition setColor (v : string) (s : State) : State :=
  mkState (isDrawing s) (tool s) v (size s) (currentStroke s) (onlineUsers s)
    (isConnected s) (drawingHistory s) (channelRef s) (canvasRef s)
    (isMounted s) (toasts s).

Definition setSize (v : number) (s : State) : State :=
  mkState (isDrawing s) (tool s) (color s) v (currentStroke s) (onlineUsers s)
    (isConnected s) (drawingHistory s) (channelRef s) (canvasRef s)
    (isMounted s) (toasts s).

Definition setCurrentStroke (v : list Point) (s : State) : State :=
  mkState (isDrawing s) (tool s) (color s) (size s) v (onlineUsers s)
    (isConnected s) (drawingHistory s) (channelRef s) (canvasRef s)
    (isMounted s) (toasts s).

Definition setOnlineUsers (v : list User.t) (s : State) : State :=
  mkState (isDrawing s) (tool s) (color s) (size s) (currentStroke s) v
    (isConnected s) (drawingHistory s) (channelRef s) (canvasRef s)
    (isMounted s) (toasts s).

Definition setIsConnected (v : bool) (s : State) : State :=
  mkState (isDrawing s) (tool s) (color s) (size s) (currentStroke s)
    (onlineUsers s) v (drawingHistory s) (channelRef s) (canvasRef s)
    (isMounted s) (toasts s).

Definition setDrawingHistory (v : list DrawingData.t) (s : State) : State :=
  mkState (isDrawing s) (tool s) (color s) (size s) (currentStroke s)
    (onlineUsers s) (isConnected s) v (channelRef s) (canvasRef s)
    (isMounted s) (toasts s).

Definition setChannelRef (v : option Channel) (s : State) : State :=
  mkState (isDrawing s) (tool s) (color s) (size s) (currentStroke s)
    (onlineUsers s) (isConnected s) (drawingHistory s) v (canvasRef s)
    (isMounted s) (toasts s).

Definition setCanvasRef (v : option Canvas) (s : State) : State :=
  mkState (isDrawing s) (tool s) (color s) (size s) (currentStroke s)
    (onlineUsers s) (isConnected s) (drawingHistory s) (channelRef s) v
    (isMounted s) (toasts s).

Definition setIsMounted (v : bool) (s : State) : State :=
  mkState (isDrawing s) (tool s) (color s) (size s) (currentStroke s)
    (onlineUsers s) (isConnected s) (drawingHistory s) (channelRef s)
    (canvasRef s) v (toasts s).

Definition toast (t : Toast) (s : State) : State :=
  mkState (isDrawing s) (tool s) (color s) (size s) (currentStroke s)
    (onlineUsers s) (isConnected s) (drawingHistory s) (channelRef s)
    (canvasRef s) (isMounted s) (toasts s ++ [t]).

(** [canvasRef.current?.getContext('2d')] *)
Definition getContext (s : State) : option Context2D :=
  match canvasRef s with
  | None => None
  | Some canvas => context2d canvas
  end.

(** The context is a mutable object: a handler that drew on it leaves the
    canvas holding the context as drawn on. *)
Definition putContext (c : Context2D) (s : State) : State :=
  match canvasRef s with
  | None => s
  | Some canvas =>
      setCanvasRef
        (Some (mkCanvas (rect_left canvas) (rect_top canvas) (Some c))) s
  end.

(** What a handler leaves behind: it returned, or it threw (a [TypeError];
    for an [async] handler, a rejected promise) with the state as it was
    at that moment. *)
Inductive Completion : Type :=
| Normal (s : State)
| Thrown (s : State).

Definition stateOf (c : Completion) : State :=
  match c with
  | Normal s => s
  | Thrown s => s
  end.

(** [Date.now().toString()] *)
Definition toString (n : Z) : string := NilZero.string_of_int (Z.to_int n).

(** [s.split('@')[0]] *)
Fixpoint beforeAt (s : string) : string :=
  match s with
  | EmptyString => EmptyString
  | String c rest =>
      if Ascii.eqb c "@"%char then EmptyString else String c (beforeAt rest)
  end.

(** [user.email?.split('@')[0] || 'Anonymous'] *)
Definition displayNameOf (user : AuthUser.t) : string :=
  match AuthUser.email user with
  | None => "Anonymous"
  | Some e => if beforeAt e =? "" then "Anonymous" else beforeAt e
  end.

(** ** The component *)

Section Whiteboard.

(** The component's prop: [Whiteboard({ user })]. *)
Variable user : AuthUser.t.

(** The browser the component runs in. *)
Context {browser : Browser}.

(** [useState]/[useRef] initial values, with the canvas element React
    attached to [canvasRef]. *)
Definition initialState (canvas : option Canvas) : State :=
  {| isDrawing := false;
     tool := pen;
     color := "#000000";
     size := 3%float;
     currentStroke := [];
     onlineUsers := [];
     isConnected := false;
     drawingHistory := [];
     channelRef := None;
     canvasRef := canvas;
     isMounted := false;
     toasts := [] |}.

(** First effect, up to the pending [subscribe]. *)
Definition connectEffect (s : State) : State :=
  let channel := mkChannel "whiteboard-room" None [] in
  let presence :=
    User.mk (AuthUser.id user)
      (Some (User.mkMetadata (Some (displayNameOf user))
               (Some (mkPoint 0%float 0%float)))) in
  setChannelRef (Some (subscribe presence channel)) (setIsMounted true s).

(** [.then(...)] and [.catch(...)] of the [subscribe] promise. *)
Definition subscribeSettled (r : Settled) (s : State) : State :=
  if negb (isMounted s) then s
  else
    match r with
    | Fulfilled =>
        toast (toast_success "Connected to whiteboard!") (setIsConnected true s)
    | Rejected => toast (toast_error "Failed to connect to whiteboard") s
    end.

(** The effect's cleanup. *)
Definition disconnectEffect (s : State) : State :=
  let s := setIsMounted false s in
  match channelRef s with
  | None => s
  | Some channel => setChannelRef (Some (unsubscribe channel)) s
  end.

(** Second effect: size the canvas (which resets its context) and paint the
    background. *)
Definition canvasEffect (s : State) : State :=
  match getContext s with
  | None => s
  | Some _ =>
      let ctx := freshContext in
      let ctx := set_lineCap cap_round ctx in
      let ctx := set_lineJoin join_round ctx in
      let ctx := set_fillStyle "#ffffff" ctx in
      putContext (fillRectCanvas ctx) s
  end.

Definition getCanvasCoordinates (e : PointerEvent) (s : State) : Point :=
  match canvasRef s with
  | None => mkPoint 0%float 0%float
  | Some canvas =>
      mkPoint (clientX (pointerClient e) - rect_left canvas)%float
              (clientY (pointerClient e) - rect_top canvas)%float
  end.

Definition startDrawing (e : PointerEvent) (s : State) : State :=
  if negb (isConnected s) then s
  else
    let s := setIsDrawing true s in
    let point := getCanvasCoordinates e s in
    let s := setCurrentStroke [point] s in
    match getContext s with
    | None => s
    | Some ctx => putContext (moveTo point (beginPath ctx)) s
    end.

Definition draw (e : PointerEvent) (s : State) : State :=
  if negb (isDrawing s) || negb (isConnected s) then s
  else
    let point := getCanvasCoordinates e s in
    let s := setCurrentStroke (currentStroke s ++ [point]) s in
    match getContext s with
    | None => s
    | Some ctx =>
        let ctx :=
          match tool s with
          | pen =>
              set_lineWidth (size s)
                (set_strokeStyle (color s)
                   (set_globalCompositeOperation source_over ctx))
          | eraser =>
              set_lineWidth (size s * 2)%float
                (set_globalCompositeOperation destination_out ctx)
          end in
        putContext (stroke (lineTo point ctx)) s
    end.

(** [stopDrawing] up to its [await]; [now_id] and [now_ts] are what the two
    [Date.now()] calls return.  With no channel there is nothing to await
    and the handler runs to its end. *)
Definition stopDrawing (now_id now_ts : Z) (s : State) : State :=
  if negb (isDrawing s) || negb (isConnected s)
     || (length (currentStroke s) =? 0)%nat
  then s
  else
    let s := setIsDrawing false s in
    let drawingData :=
      DrawingData.mk (toString now_id)
        (match tool s with pen => draw_type | eraser => erase_type end)
        (currentStroke s) (color s) (size s) now_ts in
    let s := setDrawingHistory (drawingHistory s ++ [drawingData]) s in
    match channelRef s with
    | Some channel =>
        setChannelRef
          (Some (publish "draw" (DrawPayload drawingData) (AuthUser.id user)
                   channel)) s
    | None => setCurrentStroke [] s
    end.

(** [stopDrawing] after its [await]: the publish promise settled. *)
Definition stopDrawingSettled (r : Settled) (s : State) : Completion :=
  match r with
  | Fulfilled => Normal (setCurrentStroke [] s)
  | Rejected => Thrown s
  end.

Definition drawRemoteStroke (data : DrawingData.t) (s : State) : Completion :=
  match getContext s with
  | None => Normal s
  | Some ctx =>
      if (length (DrawingData.points data) =? 0)%nat then Normal s
      else
        match nth_error (DrawingData.points data) 0 with
        | None => Thrown s   (* data.points[0] is undefined *)
        | Some p0 =>
            let ctx := moveTo p0 (beginPath ctx) in
            let ctx :=
              match DrawingData.type data with
              | draw_type =>
                  set_lineWidth (DrawingData.size data)
                    (set_strokeStyle (DrawingData.color data)
                       (set_globalCompositeOperation source_over ctx))
              | erase_type =>
                  set_lineWidth (DrawingData.size data * 2)%float
                    (set_globalCompositeOperation destination_out ctx)
              end in
            let ctx :=
              fold_left (fun c point => lineTo point c)
                (DrawingData.points data) ctx in
            Normal (putContext (stroke ctx) s)
        end
  end.

Definition clearCanvas (s : State) : State :=
  match getContext s with
  | None => s
  | Some ctx =>
      let ctx := set_fillStyle "#ffffff" ctx in
      setDrawingHistory [] (putContext (fillRectCanvas ctx) s)
  end.

(** [handleClear] up to its [await]. *)
Definition handleClear (s : State) : State :=
  if negb (isConnected s) then s
  else
    let s := clearCanvas s in
    match channelRef s with
    | Some channel =>
        setChannelRef
          (Some (publish "clear" EmptyPayload (AuthUser.id user) channel)) s
    | None => toast (toast_success "Canvas cleared") s
    end.

(** [handleClear] after its [await]. *)
Definition handleClearSettled (r : Settled) (s : State) : Completion :=
  match r with
  | Fulfilled => Normal (toast (toast_success "Canvas cleared") s)
  | Rejected => Thrown s
  end.

(** [array.forEach(f)] for a callback that may throw. *)
Fixpoint forEach {A : Type} (f : A -> State -> Completion) (l : list A)
  (s : State) : Completion :=
  match l with
  | [] => Normal s
  | a :: rest =>
      match f a s with
      | Normal s' => forEach f rest s'
      | Thrown s' => Thrown s'
      end
  end.

Definition redrawCanvas (s : State) : Completion :=
  match getContext s with
  | None => Normal s
  | Some _ =>
      let s := clearCanvas s in
      forEach drawRemoteStroke (drawingHistory s) s
  end.

Definition handleUndo (s : State) : Completion :=
  if (length (drawingHistory s) =? 0)%nat then Normal s
  else
    let s := setDrawingHistory (removelast (drawingHistory s)) s in
    redrawCanvas s.

(** The [channel.onMessage] handler.  A draw message whose [data] has no
    [points] makes [drawRemoteStroke] read [length] of [undefined], once it
    is past the context test. *)
Definition onMessage (message : Message.t) (s : State) : Completion :=
  if (Message.type message =? "draw")
     && negb (Message.userId message =? AuthUser.id user)
  then
    match Message.data message with
    | DrawPayload data => drawRemoteStroke data s
    | EmptyPayload =>
        match getContext s with
        | None => Normal s
        | Some _ => Thrown s
        end
    end
  else if Message.type message =? "clear" then Normal (clearCanvas s)
  else Normal s.

(** The [channel.onPresence] handler. *)
Definition onPresence (users : list User.t) (s : State) : State :=
  setOnlineUsers users s.

(** The header's [{onlineUsers.length} online]. *)
Definition onlineCount (s : State) : nat := length (onlineUsers s).

(** ** The event loop *)

Inductive Event : Type :=
| SubscribeSettled (r : Settled)
| MessageReceived (message : Message.t)
| PresenceReceived (users : list User.t)
| PointerDown (e : PointerEvent)          (* onMouseDown, onTouchStart *)
| PointerMove (e : PointerEvent)          (* onMouseMove, onTouchMove *)
| PointerUp (now_id now_ts : Z)           (* onMouseUp, onMouseLeave, onTouchEnd *)
| DrawPublishSettled (r : Settled)
| ClearClicked
| ClearPublishSettled (r : Settled)
| UndoClicked
| ToolPicked (t : Tool)
| ColorPicked (c : string)
| SizePicked (n : number).

(** One callback of the event loop.  A callback that throws leaves the
    state as it was when it threw; the loop goes on. *)
Definition step (ev : Event) (s : State) : State :=
  match ev with
  | SubscribeSettled r => subscribeSettled r s
  | MessageReceived message => stateOf (onMessage message s)
  | PresenceReceived users => onPresence users s
  | PointerDown e => startDrawing e s
  | PointerMove e => draw e s
  | PointerUp now_id now_ts => stopDrawing now_id now_ts s
  | DrawPublishSettled r => stateOf (stopDrawingSettled r s)
  | ClearClicked => handleClear s
  | ClearPublishSettled r => stateOf (handleClearSettled r s)
  | UndoClicked => stateOf (handleUndo s)
  | ToolPicked t => setTool t s
  | ColorPicked c => setColor c s
  | SizePicked n => setSize n s
  end.

Definition run (evs : list Event) (s : State) : State :=
  fold_left (fun s ev => step ev s) evs s.

(** The presence snapshot delivered last in a run of events, if any. *)
Fixpoint latestSnapshot (evs : list Event) : option (list User.t) :=
  match evs with
  | [] => None
  | ev :: rest =>
      match latestSnapshot rest with
      | Some users => Some users
      | None =>
          match ev with
          | PresenceReceived users => Some users
          | _ => None
          end
      end
  end.

(** The messages this replica has published so far. *)
Definition publishedBy (s : State) : list Message.t :=
  match channelRef s with
  | None => []
  | Some channel => published channel
  end.

(** The surface: the canvas bitmap, when there is a context. *)
Definition surface (s : State) : option Raster :=
  match getContext s with
  | None => None
  | Some ctx => Some (bitmap ctx)
  end.

End Whiteboard.

(** * Vocabulary of the statements *)

(** The three handlers of a gesture. *)
Definition isGesture (ev : Event) : bool :=
  match ev with
  | PointerDown _ | PointerMove _ | PointerUp _ _ => true
  | _ => false
  end.


(** The position of the canvas in the viewport. *)
Definition canvasRect (canvas : option Canvas) : option (number * number) :=
  match canvas with
  | None => None
  | Some c => Some (rect_left c, rect_top c)
  end.

(** [s1] is inside a gesture that began in [s] and has sampled [pts] so
    far. *)
Definition inGesture (s s1 : State) (pts : list Point) : Prop :=
  isDrawing s1 = true
  /\ isConnected s1 = true
  /\ currentStroke s1 = pts
  /\ tool s1 = tool s
  /\ color s1 = color s
  /\ size s1 = size s
  /\ drawingHistory s1 = drawingHistory s
  /\ channelRef s1 = channelRef s
  /\ canvasRect (canvasRef s1) = canvasRect (canvasRef s).

(** ** What the markup reads off the state *)

(** [user.metadata?.displayName || 'Anonymous'], the name an entry of the
    online users list is shown with. *)
Definition shownName (u : User.t) : string :=
  match User.metadata u with
  | None => "Anonymous"
  | Some m =>
      match User.displayName m with
      | None => "Anonymous"
      | Some n => if n =? "" then "Anonymous" else n
      end
  end.

(** The Undo button's
    [disabled={!isConnected || drawingHistory.current.length === 0}]. *)
Definition undoDisabled (s : State) : bool :=
  negb (isConnected s) || (length (drawingHistory s) =? 0)%nat.

(** The Clear All button's [disabled={!isConnected}]. *)
Definition clearDisabled (s : State) : bool := negb (isConnected s).

(** ** Invariants *)

(** Whether a string has an ['@'] in it. *)
Fixpoint containsAt (s : string) : bool :=
  match s with
  | EmptyString => false
  | String c rest => Ascii.eqb c "@"%char || containsAt rest
  end.

(** Every stroke painted on a bitmap was painted with round caps and
    joins. *)
Fixpoint allRound (r : Raster) : Prop :=
  match r with
  | Transparent => True
  | Solid _ => True
  | Stroked under b _ =>
      brush_cap b = cap_round /\ brush_join b = join_round /\ allRound under
  end.

(** The context, when there is one, paints with round caps and joins and
    has only ever done so. *)
Definition roundContext (s : State) : Prop :=
  match getContext s with
  | None => True
  | Some ctx =>
      lineCap ctx = cap_round /\ lineJoin ctx = join_round
      /\ allRound (bitmap ctx)
  end.

(** A message as this replica sends them: under its own id, a draw message
    with a stroke of at least one point, or a clear message with no data. *)
Definition ownMessage (user : AuthUser.t) (m : Message.t) : Prop :=
  Message.userId m = AuthUser.id user
  /\ ((Message.type m = "draw"
       /\ exists d, Message.data m = DrawPayload d
                    /\ DrawingData.points d <> [])
      \/ (Message.type m = "clear" /\ Message.data m = EmptyPayload)).

(** The component once its two effects have run, in the order they are
    written. *)
Definition mount (user : AuthUser.t) (canvas : option Canvas) : State :=
  canvasEffect (connectEffect user (initialState canvas)).

(** The states a mounted component can be in. *)
Definition reachable {browser : Browser} (user : AuthUser.t) (s : State)
  : Prop :=
  exists canvas evs, s = run user evs (mount user canvas).

(** Whether an event is the success of [subscribe]. *)
Definition isSubscribed (ev : Event) : bool :=
  match ev with
  | SubscribeSettled Fulfilled => true
  | _ => false
  end.

(** * The App component

    [App.tsx]: it holds the signed-in user, fed by [blink.auth.me()] and by
    [blink.auth.onAuthStateChanged], and shows the whiteboard once there is
    one. *)

Module App.

(** What [onAuthStateChanged] passes: [state?.user] is read. *)
Record AuthState : Type := mkAuthState { authUser : option AuthUser.t }.

Record State : Type := mkState {
  user : option AuthUser.t;
  isMounted : bool
}.

(** After the first render and its effect. *)
Definition initialState : State := {| user := None; isMounted := true |}.

Definition setUser (v : option AuthUser.t) (s : State) : State :=
  {| user := v; isMounted := isMounted s |}.

Inductive Event : Type :=
| FetchResolved (authUser : option AuthUser.t)   (* await blink.auth.me() *)
| FetchRejected                                  (* the catch of fetchUser *)
| AuthStateChanged (state : option AuthState)
| Unmounted.                                     (* the effect's cleanup *)

(** [state?.user || null] *)
Definition userOf (state : option AuthState) : option AuthUser.t :=
  match state with
  | None => None
  | Some st => authUser st
  end.

Definition step (ev : Event) (s : State) : State :=
  match ev with
  | FetchResolved authUser => if isMounted s then setUser authUser s else s
  | FetchRejected => s
  | AuthStateChanged state =>
      if isMounted s then setUser (userOf state) s else s
  | Unmounted => {| user := user s; isMounted := false |}
  end.

Definition run (evs : list Event) (s : State) : State :=
  fold_left (fun s ev => step ev s) evs s.

Inductive View : Type :=
| Loading
| WhiteboardView (user : AuthUser.t).

Definition render (s : State) : View :=
  match user s with
  | None => Loading
  | Some u => WhiteboardView u
  end.

(** The events up to the first cleanup. *)
Fixpoint whileMounted (evs : list Event) : list Event :=
  match evs with
  | [] => []
  | Unmounted :: _ => []
  | ev :: rest => ev :: whileMounted rest
  end.

(** What the last event that carries a user carried, if any did. *)
Fixpoint lastAuth (evs : list Event) : option (option AuthUser.t) :=
  match evs with
  | [] => None
  | ev :: rest =>
      match lastAuth rest with
      | Some u => Some u
      | None =>
          match ev with
          | FetchResolved authUser => Some authUser
          | AuthStateChanged state => Some (userOf state)
          | _ => None
          end
      end
  end.

End App.

(** * A browser for the sessions

    A colour parser that knows the six-digit hexadecimal notation, which is
    all the palette uses, and reports a colour back in lower case. *)

Definition isHexDigit (c : ascii) : bool :=
  let n := nat_of_ascii c in
  ((48 <=? n) && (n <=? 57) || (97 <=? n) && (n <=? 102)
   || (65 <=? n) && (n <=? 70))%nat.

Definition lowerHexDigit (c : ascii) : ascii :=
  let n := nat_of_ascii c in
  if ((65 <=? n) && (n <=? 70))%nat then ascii_of_nat (n + 32) else c.

Fixpoint allHexDigits (s : string) : bool :=
  match s with
  | EmptyString => true
  | String c rest => isHexDigit c && allHexDigits rest
  end.

Fixpoint lowerHexDigits (s : string) : string :=
  match s with
  | EmptyString => EmptyString
  | String c rest => String (lowerHexDigit c) (lowerHexDigits rest)
  end.

Definition hexColor (s : string) : option string :=
  match s with
  | EmptyString => None
  | String c rest =>
      if Ascii.eqb c "#"%char && (String.length rest =? 6)%nat
         && allHexDigits rest
      then Some (String "#"%char (lowerHexDigits rest))
      else None
  end.

Definition hexBrowser : Browser := {| parseColor := hexColor |}.

(** * Sessions

    Two participants and the states of a few short sessions, used below to
    run the handlers on concrete inputs. *)

Section Sessions.

#[local] Existing Instance hexBrowser.

Definition alice : AuthUser.t :=
  AuthUser.mk "alice" (Some "alice@example.org") None.

Definition bob : AuthUser.t := AuthUser.mk "bob" (Some "bob@example.org") None.

(** A canvas placed at (8, 16) in the viewport. *)
Definition board : Canvas := mkCanvas 8%float 16%float (Some freshContext).

(** A replica whose effects have run; its [subscribe] is pending. *)
Definition mounted (user : AuthUser.t) : State :=
  canvasEffect (connectEffect user (initialState (Some board))).

(** The same replica once [subscribe] succeeded. *)
Definition connected (user : AuthUser.t) : State :=
  subscribeSettled Fulfilled (mounted user).

Definition mouseAt (cx cy : number) : PointerEvent :=
  MouseEvent (mkClient cx cy).

(** Alice picks red and drags from canvas point (0, 0) to (10, 10). *)
Definition redLine : list Event :=
  [ColorPicked "#ff0000";
   PointerDown (mouseAt 8%float 16%float);
   PointerMove (mouseAt 18%float 26%float);
   PointerUp 1000 1000].

Definition redStroke : DrawingData.t :=
  DrawingData.mk "1000" draw_type
    [mkPoint 0%float 0%float; mkPoint 10%float 10%float]
    "#ff0000" 3%float 1000.

Definition redMessage : Message.t :=
  Message.mk "draw" "alice" (DrawPayload redStroke).

(** A second stroke, in black, after the first publish settled. *)
Definition secondLine : list Event :=
  [DrawPublishSettled Fulfilled;
   ColorPicked "#000000";
   PointerDown (mouseAt 28%float 36%float);
   PointerMove (mouseAt 38%float 36%float);
   PointerUp 2000 2000;
   DrawPublishSettled Fulfilled].

(** A stroke with the eraser. *)
Definition erasure : list Event :=
  [ToolPicked eraser;
   PointerDown (mouseAt 8%float 16%float);
   PointerMove (mouseAt 18%float 26%float);
   PointerUp 3000 3000;
   DrawPublishSettled Fulfilled].

Definition eraseStroke : DrawingData.t :=
  DrawingData.mk "3000" erase_type
    [mkPoint 0%float 0%float; mkPoint 10%float 10%float]
    "#000000" 3%float 3000.

Definition emptyStroke : DrawingData.t :=
  DrawingData.mk "4000" draw_type [] "#00ff00" 5%float 4000.

(** The states the sessions below start from, evaluated. *)

Definition aliceAfterRed : State :=
  Eval vm_compute in run alice redLine (connected alice).

Definition aliceAfterTwo : State :=
  Eval vm_compute in run alice (redLine ++ secondLine) (connected alice).

Definition aliceAfterErasure : State :=
  Eval vm_compute in run alice erasure (connected alice).

Definition bobConnected : State := Eval vm_compute in connected bob.

Definition alicePending : State := Eval vm_compute in mounted alice.

(** Alice in the middle of a drag, one move made. *)
Definition aliceDragging : State :=
  Eval vm_compute in
    run alice [PointerDown (mouseAt 8%float 16%float);
               PointerMove (mouseAt 18%float 26%float)] (connected alice).

Definition aliceConnected : State := Eval vm_compute in connected alice.

(** Alice with the eraser, pointer down. *)
Definition aliceErasing : State :=
  Eval vm_compute in
    run alice [ToolPicked eraser; PointerDown (mouseAt 8%float 16%float)]
      (connected alice).

Definition emptyMessage : Message.t :=
  Message.mk "draw" "alice" (DrawPayload emptyStroke).

Definition drag : list Event :=
  [PointerDown (mouseAt 8%float 16%float);
   PointerMove (mouseAt 18%float 26%float);
   PointerUp 1000 1000].

(** A third stroke, then two clicks on Undo. *)
Definition thirdLineAndUndos : list Event :=
  [PointerDown (mouseAt 48%float 56%float);
   PointerMove (mouseAt 58%float 66%float);
   PointerUp 5000 5000;
   DrawPublishSettled Fulfilled;
   UndoClicked;
   UndoClicked].

(** Alice's second drag, begun while the publish of her red stroke is
    still pending: the pointer went down at canvas point (20, 20) and moved
    to (30, 20). *)
Definition aliceSecondDrag : State :=
  Eval vm_compute in
    run alice
      (redLine ++ [PointerDown (mouseAt 28%float 36%float);
                   PointerMove (mouseAt 38%float 36%float)])
      (connected alice).

(** Alice's second drag at the moment the publish of her red stroke
    settles, right after the pointer went down: no sample is left. *)
Definition aliceEmptied : State :=
  Eval vm_compute in
    run alice
      (redLine ++ [PointerDown (mouseAt 28%float 36%float);
                   DrawPublishSettled Fulfilled])
      (connected alice).


Definition aliceEntry : User.t :=
  User.mk "alice" (Some (User.mkMetadata (Some "alice") None)).

Definition bobEntry : User.t :=
  User.mk "bob" (Some (User.mkMetadata (Some "bob") None)).

End Sessions.

(** * Properties *)

(** ** What the checked assignments keep *)

Lemma set_lineWidth_width (v : number) (c : Context2D) :
  lineWidth (set_lineWidth v c) = if validLineWidth v then v else lineWidth c.
Proof. unfold set_lineWidth; destruct (validLineWidth v); reflexivity. Qed.

Lemma set_lineWidth_op (v : number) (c : Context2D) :
  globalCompositeOperation (set_lineWidth v c) = globalCompositeOperation c.
Proof. unfold set_lineWidth; destruct (validLineWidth v); reflexivity. Qed.

Lemma set_lineWidth_style (v : number) (c : Context2D) :
  strokeStyle (set_lineWidth v c) = strokeStyle c.
Proof. unfold set_lineWidth; destruct (validLineWidth v); reflexivity. Qed.

Lemma set_lineWidth_cap (v : number) (c : Context2D) :
  lineCap (set_lineWidth v c) = lineCap c.
Proof. unfold set_lineWidth; destruct (validLineWidth v); reflexivity. Qed.

Lemma set_lineWidth_join (v : number) (c : Context2D) :
  lineJoin (set_lineWidth v c) = lineJoin c.
Proof. unfold set_lineWidth; destruct (validLineWidth v); reflexivity. Qed.

Lemma set_lineWidth_path (v : number) (c : Context2D) :
  path (set_lineWidth v c) = path c.
Proof. unfold set_lineWidth; destruct (validLineWidth v); reflexivity. Qed.

Lemma set_lineWidth_bitmap (v : number) (c : Context2D) :
  bitmap (set_lineWidth v c) = bitmap c.
Proof. unfold set_lineWidth; destruct (validLineWidth v); reflexivity. Qed.

Lemma set_strokeStyle_style {browser : Browser} (v : string) (c : Context2D) :
  strokeStyle (set_strokeStyle v c)
  = match parseColor v with Some col => col | None => strokeStyle c end.
Proof. unfold set_strokeStyle; destruct (parseColor v); reflexivity. Qed.

Lemma set_strokeStyle_op {browser : Browser} (v : string) (c : Context2D) :
  globalCompositeOperation (set_strokeStyle v c) = globalCompositeOperation c.
Proof. unfold set_strokeStyle; destruct (parseColor v); reflexivity. Qed.

Lemma set_strokeStyle_width {browser : Browser} (v : string) (c : Context2D) :
  lineWidth (set_strokeStyle v c) = lineWidth c.
Proof. unfold set_strokeStyle; destruct (parseColor v); reflexivity. Qed.

Lemma set_strokeStyle_cap {browser : Browser} (v : string) (c : Context2D) :
  lineCap (set_strokeStyle v c) = lineCap c.
Proof. unfold set_strokeStyle; destruct (parseColor v); reflexivity. Qed.

Lemma set_strokeStyle_join {browser : Browser} (v : string) (c : Context2D) :
  lineJoin (set_strokeStyle v c) = lineJoin c.
Proof. unfold set_strokeStyle; destruct (parseColor v); reflexivity. Qed.

Lemma set_strokeStyle_path {browser : Browser} (v : string) (c : Context2D) :
  path (set_strokeStyle v c) = path c.
Proof. unfold set_strokeStyle; destruct (parseColor v); reflexivity. Qed.

Lemma set_strokeStyle_bitmap {browser : Browser} (v : string) (c : Context2D) :
  bitmap (set_strokeStyle v c) = bitmap c.
Proof. unfold set_strokeStyle; destruct (parseColor v); reflexivity. Qed.

Create Rewrite HintDb canvas.

#[global] Hint Rewrite set_lineWidth_width set_lineWidth_op set_lineWidth_style
  set_lineWidth_cap set_lineWidth_join set_lineWidth_path set_lineWidth_bitmap
  @set_strokeStyle_style @set_strokeStyle_op @set_strokeStyle_width
  @set_strokeStyle_cap @set_strokeStyle_join @set_strokeStyle_path
  @set_strokeStyle_bitmap : canvas.

(** Opens a handler: its guards and the canvas lookups. *)
Ltac open_handler :=
  repeat match goal with
    | |- context [if ?b then _ else _] => destruct b eqn:?
    | |- context [match canvasRef ?s with _ => _ end] =>
        destruct (canvasRef s) as [?canvas|] eqn:?
    | |- context [match context2d ?c with _ => _ end] =>
        destruct (context2d c) as [?ctx|] eqn:?
    | |- context [match channelRef ?s with _ => _ end] =>
        destruct (channelRef s) as [?channel|] eqn:?
    | |- context [match nth_error ?l 0 with _ => _ end] =>
        destruct (nth_error l 0) as [?p0|] eqn:?
    | |- context [match tool ?s with _ => _ end] => destruct (tool s) eqn:?
    | |- context [match DrawingData.type ?d with _ => _ end] =>
        destruct (DrawingData.type d) eqn:?
    end.

Section Properties.

Context {browser : Browser}.

(** ** Canvas and state bookkeeping *)

Lemma getContext_putContext (c c' : Context2D) (s : State) :
  getContext s = Some c -> getContext (putContext c' s) = Some c'.
Proof.
  unfold getContext, putContext.
  destruct (canvasRef s) as [canvas|]; [reflexivity | discriminate].
Qed.

Lemma lineTo_fold_path (pts : list Point) (c : Context2D) :
  path (fold_left (fun c point => lineTo point c) pts c)
  = path c ++ map LineTo pts.
Proof.
  revert c; induction pts as [|p pts IH]; intros c; simpl.
  - now rewrite app_nil_r.
  - rewrite IH; simpl. now rewrite <- app_assoc.
Qed.

Lemma lineTo_fold_brush (pts : list Point) (c : Context2D) :
  brushOf (fold_left (fun c point => lineTo point c) pts c) = brushOf c.
Proof.
  revert c; induction pts as [|p pts IH]; intros c; simpl; [reflexivity|].
  now rewrite IH.
Qed.

Lemma lineTo_fold_bitmap (pts : list Point) (c : Context2D) :
  bitmap (fold_left (fun c point => lineTo point c) pts c) = bitmap c.
Proof.
  revert c; induction pts as [|p pts IH]; intros c; simpl; [reflexivity|].
  now rewrite IH.
Qed.

Lemma stroke_path (c : Context2D) : path (stroke c) = path c.
Proof. reflexivity. Qed.

Lemma stroke_bitmap (c : Context2D) :
  bitmap (stroke c) = Stroked (bitmap c) (brushOf c) (path c).
Proof. reflexivity. Qed.

Lemma stroke_brush (c : Context2D) : brushOf (stroke c) = brushOf c.
Proof. reflexivity. Qed.

Lemma lineToPoints_app (p q : list PathCmd) :
  lineToPoints (p ++ q) = lineToPoints p ++ lineToPoints q.
Proof.
  induction p as [|[m|l] p IH]; simpl; [reflexivity | exact IH | now rewrite IH].
Qed.

Lemma lineToPoints_map (pts : list Point) :
  lineToPoints (map LineTo pts) = pts.
Proof.
  induction pts as [|p pts IH]; simpl; [reflexivity | now rewrite IH].
Qed.

(** A [forEach] keeps whatever each call of its callback keeps. *)
Lemma forEach_keeps {A B : Type} (proj : State -> B)
  (f : A -> State -> Completion) :
  (forall a s, proj (stateOf (f a s)) = proj s) ->
  forall l s, proj (stateOf (forEach f l s)) = proj s.
Proof.
  intros Hf l; induction l as [|a l IH]; intros s; simpl; [reflexivity|].
  specialize (Hf a s).
  destruct (f a s) as [s'|s']; simpl in *; [now rewrite IH | exact Hf].
Qed.

(** Drawing a stroke touches the canvas and nothing else. *)
Lemma drawRemoteStroke_canvas_only (data : DrawingData.t) (s : State) :
  exists canvas, stateOf (drawRemoteStroke data s) = setCanvasRef canvas s.
Proof.
  exists (canvasRef (stateOf (drawRemoteStroke data s))).
  unfold drawRemoteStroke, getContext, putContext.
  open_handler; destruct s; simpl in *; subst; reflexivity.
Qed.

Lemma clearCanvas_onlineUsers (s : State) :
  onlineUsers (clearCanvas s) = onlineUsers s.
Proof.
  unfold clearCanvas, getContext, putContext; open_handler; reflexivity.
Qed.

Lemma clearCanvas_channelRef (s : State) :
  channelRef (clearCanvas s) = channelRef s.
Proof.
  unfold clearCanvas, getContext, putContext; open_handler; reflexivity.
Qed.

Lemma drawRemoteStroke_onlineUsers (data : DrawingData.t) (s : State) :
  onlineUsers (stateOf (drawRemoteStroke data s)) = onlineUsers s.
Proof.
  destruct (drawRemoteStroke_canvas_only data s) as [canvas ->]; reflexivity.
Qed.

Lemma drawRemoteStroke_channelRef (data : DrawingData.t) (s : State) :
  channelRef (stateOf (drawRemoteStroke data s)) = channelRef s.
Proof.
  destruct (drawRemoteStroke_canvas_only data s) as [canvas ->]; reflexivity.
Qed.

Lemma drawRemoteStroke_drawingHistory (data : DrawingData.t) (s : State) :
  drawingHistory (stateOf (drawRemoteStroke data s)) = drawingHistory s.
Proof.
  destruct (drawRemoteStroke_canvas_only data s) as [canvas ->]; reflexivity.
Qed.

Lemma handleUndo_onlineUsers (s : State) :
  onlineUsers (stateOf (handleUndo s)) = onlineUsers s.
Proof.
  unfold handleUndo.
  destruct (length (drawingHistory s) =? 0)%nat; [reflexivity|].
  unfold redrawCanvas.
  destruct (getContext _); [|reflexivity].
  rewrite (forEach_keeps onlineUsers), clearCanvas_onlineUsers;
    [reflexivity | exact drawRemoteStroke_onlineUsers].
Qed.

Lemma handleUndo_channelRef (s : State) :
  channelRef (stateOf (handleUndo s)) = channelRef s.
Proof.
  unfold handleUndo.
  destruct (length (drawingHistory s) =? 0)%nat; [reflexivity|].
  unfold redrawCanvas.
  destruct (getContext _); [|reflexivity].
  rewrite (forEach_keeps channelRef), clearCanvas_channelRef;
    [reflexivity | exact drawRemoteStroke_channelRef].
Qed.

Lemma onMessage_onlineUsers (user : AuthUser.t) (message : Message.t)
  (s : State) :
  onlineUsers (stateOf (onMessage user message s)) = onlineUsers s.
Proof.
  unfold onMessage.
  destruct (_ && _).
  - destruct (Message.data message) as [data|].
    + apply drawRemoteStroke_onlineUsers.
    + destruct (getContext s); reflexivity.
  - destruct (_ =? _); [apply clearCanvas_onlineUsers | reflexivity].
Qed.

(** Only a presence snapshot changes [onlineUsers]. *)
Lemma step_onlineUsers (user : AuthUser.t) (ev : Event) (s : State) :
  onlineUsers (step user ev s)
  = match ev with
    | PresenceReceived users => users
    | _ => onlineUsers s
    end.
Proof.
  destruct ev as [r|message|users|e|e|now_id now_ts|r| |r| |t|c|n]; simpl.
  - unfold subscribeSettled; destruct (negb _), r; reflexivity.
  - apply onMessage_onlineUsers.
  - reflexivity.
  - unfold startDrawing, getContext, putContext; open_handler; reflexivity.
  - unfold draw, getContext, putContext; open_handler; reflexivity.
  - unfold stopDrawing; open_handler; reflexivity.
  - destruct r; reflexivity.
  - unfold handleClear.
    destruct (negb _); [reflexivity|].
    destruct (channelRef _); simpl; apply clearCanvas_onlineUsers.
  - destruct r; reflexivity.
  - apply handleUndo_onlineUsers.
  - reflexivity.
  - reflexivity.
  - reflexivity.
Qed.

(** ** Presence *)

Lemma run_cons (user : AuthUser.t) (ev : Event) (evs : list Event)
  (s : State) :
  run user (ev :: evs) s = run user evs (step user ev s).
Proof. reflexivity. Qed.

Lemma run_onlineUsers (user : AuthUser.t) (evs : list Event) (s : State) :
  onlineUsers (run user evs s)
  = match latestSnapshot evs with
    | Some users => users
    | None => onlineUsers s
    end.
Proof.
  revert s; induction evs as [|ev evs IH]; intros s; [reflexivity|].
  rewrite run_cons, IH; simpl.
  destruct (latestSnapshot evs) as [users|]; [reflexivity|].
  rewrite step_onlineUsers; destruct ev; reflexivity.
Qed.

(** C9.  Whatever events a replica has handled, from whatever state, the
    online count it shows is the size of the presence snapshot delivered
    last, and the member list is that snapshot itself (nothing of an
    earlier snapshot is kept); before the first snapshot, the count is the
    one the replica started with. *)
Theorem online_count_is_latest_snapshot (user : AuthUser.t)
  (evs : list Event) (s : State) :
  onlineCount (run user evs s)
  = match latestSnapshot evs with
    | Some users => length users
    | None => onlineCount s
    end
  /\ onlineUsers (run user evs s)
     = match latestSnapshot evs with
       | Some users => users
       | None => onlineUsers s
       end.
Proof.
  unfold onlineCount; rewrite run_onlineUsers.
  destruct (latestSnapshot evs) as [users|]; split; reflexivity.
Qed.

(** ** Undo on an empty history *)

(** C10.  [handleUndo] on an empty history returns normally and leaves the
    whole state as it was: the history (still empty), the canvas, and
    everything else. *)
Theorem undo_on_empty_history_is_noop (s : State) :
  drawingHistory s = [] ->
  handleUndo s = Normal s
  /\ length (drawingHistory (stateOf (handleUndo s))) = 0%nat
  /\ surface (stateOf (handleUndo s)) = surface s.
Proof.
  intros H; unfold handleUndo; rewrite H; simpl.
  now rewrite H.
Qed.

(** ** Inbound messages with no points *)

(** C7.  A draw message whose point list is empty, from whichever sender,
    is dropped: the handler returns normally and the state (canvas,
    history, channel) is the one before. *)
Theorem empty_stroke_message_is_dropped (user : AuthUser.t)
  (message : Message.t) (data : DrawingData.t) (s : State) :
  Message.type message = "draw" ->
  Message.data message = DrawPayload data ->
  DrawingData.points data = [] ->
  onMessage user message s = Normal s.
Proof.
  intros Ht Hd Hp; unfold onMessage; rewrite Ht, Hd; simpl.
  destruct (negb _); [|reflexivity].
  unfold drawRemoteStroke; rewrite Hp; simpl.
  destruct (getContext s); reflexivity.
Qed.

(** ** Gestures while not connected *)

Lemma startDrawing_not_connected (e : PointerEvent) (s : State) :
  isConnected s = false -> startDrawing e s = s.
Proof. intros H; unfold startDrawing; now rewrite H. Qed.

Lemma draw_not_connected (e : PointerEvent) (s : State) :
  isConnected s = false -> draw e s = s.
Proof. intros H; unfold draw; rewrite H; now rewrite orb_true_r. Qed.

Lemma stopDrawing_not_connected (user : AuthUser.t) (now_id now_ts : Z)
  (s : State) :
  isConnected s = false -> stopDrawing user now_id now_ts s = s.
Proof. intros H; unfold stopDrawing; rewrite H; simpl; now rewrite orb_true_r. Qed.

(** C8.  While [isConnected] is false (the subscription is pending, failed,
    or was never made), [startDrawing], [draw] and [stopDrawing] return the
    state unchanged, and so does any sequence of them: nothing is drawn,
    recorded, published or kept for later. *)
Theorem gestures_ignored_unless_connected (user : AuthUser.t)
  (e : PointerEvent) (now_id now_ts : Z) (evs : list Event) (s : State) :
  isConnected s = false ->
  startDrawing e s = s
  /\ draw e s = s
  /\ stopDrawing user now_id now_ts s = s
  /\ (forallb isGesture evs = true -> run user evs s = s).
Proof.
  intros H; repeat split.
  - now apply startDrawing_not_connected.
  - now apply draw_not_connected.
  - now apply stopDrawing_not_connected.
  - induction evs as [|ev evs IH]; [reflexivity|].
    intros Hall; simpl in Hall; apply andb_prop in Hall as [Hev Hevs].
    rewrite run_cons.
    replace (step user ev s) with s; [now apply IH|].
    destruct ev; try discriminate; simpl; symmetry.
    + now apply startDrawing_not_connected.
    + now apply draw_not_connected.
    + now apply stopDrawing_not_connected.
Qed.

(** ** What a rendered stroke looks like *)

Lemma surface_putContext (c c' : Context2D) (s : State) :
  getContext s = Some c -> surface (putContext c' s) = Some (bitmap c').
Proof.
  intros H; unfold surface; now rewrite (getContext_putContext c c' s H).
Qed.

(** Replay of a stroke with at least one point: one new path, from the
    first point through every point in order, stroked once over what was
    there, with a brush chosen by the stroke's [type]; a width or a colour
    that the context does not accept leaves the one it had. *)
Lemma drawRemoteStroke_paints (data : DrawingData.t) (s : State)
  (ctx : Context2D) (p0 : Point) (rest : list Point) :
  getContext s = Some ctx ->
  DrawingData.points data = p0 :: rest ->
  exists ctx',
    drawRemoteStroke data s = Normal (putContext ctx' s)
    /\ path ctx' = MoveTo p0 :: map LineTo (p0 :: rest)
    /\ bitmap ctx' = Stroked (bitmap ctx) (brushOf ctx') (path ctx')
    /\ brushOf ctx'
       = match DrawingData.type data with
         | draw_type =>
             mkBrush source_over
               (match parseColor (DrawingData.color data) with
                | Some col => col
                | None => strokeStyle ctx
                end)
               (if validLineWidth (DrawingData.size data)
                then DrawingData.size data else lineWidth ctx)
               (lineCap ctx) (lineJoin ctx)
         | erase_type =>
             mkBrush destination_out (strokeStyle ctx)
               (if validLineWidth (DrawingData.size data * 2)%float
                then (DrawingData.size data * 2)%float else lineWidth ctx)
               (lineCap ctx) (lineJoin ctx)
         end.
Proof.
  intros Hctx Hpts; unfold drawRemoteStroke; rewrite Hctx, Hpts.
  cbn [length Nat.eqb nth_error].
  eexists; split; [reflexivity|].
  rewrite stroke_path, stroke_bitmap, stroke_brush.
  rewrite lineTo_fold_path, lineTo_fold_bitmap, lineTo_fold_brush.
  unfold brushOf.
  destruct (DrawingData.type data); autorewrite with canvas;
    repeat split; reflexivity.
Qed.

Lemma getCanvasCoordinates_rect (e : PointerEvent) (s s' : State) :
  canvasRect (canvasRef s') = canvasRect (canvasRef s) ->
  getCanvasCoordinates e s' = getCanvasCoordinates e s.
Proof.
  unfold getCanvasCoordinates, canvasRect.
  destruct (canvasRef s') as [c'|], (canvasRef s) as [c|];
    try discriminate; [|reflexivity].
  intros H.
  assert (Hl : rect_left c' = rect_left c) by exact (f_equal (fun o =>
    match o with Some (l, _) => l | None => rect_left c end) H).
  assert (Ht : rect_top c' = rect_top c) by exact (f_equal (fun o =>
    match o with Some (_, t) => t | None => rect_top c end) H).
  now rewrite Hl, Ht.
Qed.

Lemma canvasRect_putContext (c : Context2D) (s : State) :
  canvasRect (canvasRef (putContext c s)) = canvasRect (canvasRef s).
Proof.
  unfold putContext; destruct (canvasRef s) as [canvas|] eqn:H;
    [reflexivity | now rewrite H].
Qed.

(** An accepted [draw]: the sample joins the stroke in progress, and (with
    a context) the path grows by one line and is stroked with a brush chosen
    by the tool; a width or a colour that the context does not accept
    leaves the one it had. *)
Lemma draw_paints (e : PointerEvent) (s : State) (ctx : Context2D) :
  isDrawing s = true ->
  isConnected s = true ->
  getContext s = Some ctx ->
  exists ctx',
    draw e s
    = putContext ctx'
        (setCurrentStroke (currentStroke s ++ [getCanvasCoordinates e s]) s)
    /\ path ctx' = path ctx ++ [LineTo (getCanvasCoordinates e s)]
    /\ bitmap ctx' = Stroked (bitmap ctx) (brushOf ctx') (path ctx')
    /\ brushOf ctx'
       = match tool s with
         | pen =>
             mkBrush source_over
               (match parseColor (color s) with
                | Some col => col
                | None => strokeStyle ctx
                end)
               (if validLineWidth (size s) then size s else lineWidth ctx)
               (lineCap ctx) (lineJoin ctx)
         | eraser =>
             mkBrush destination_out (strokeStyle ctx)
               (if validLineWidth (size s * 2)%float
                then (size s * 2)%float else lineWidth ctx)
               (lineCap ctx) (lineJoin ctx)
         end.
Proof.
  intros Hd Hc Hctx; unfold draw; rewrite Hd, Hc; cbn [negb orb].
  replace (getContext (setCurrentStroke _ s)) with (Some ctx)
    by (rewrite <- Hctx; reflexivity).
  eexists; split; [reflexivity|].
  cbn [tool color size setCurrentStroke].
  rewrite stroke_path, stroke_bitmap, stroke_brush.
  unfold brushOf, lineTo;
    cbn [path bitmap set_path globalCompositeOperation strokeStyle lineWidth
           lineCap lineJoin].
  destruct (tool s); autorewrite with canvas; repeat split; reflexivity.
Qed.

(** An accepted [draw] changes the stroke in progress and the canvas
    context, nothing else. *)
Lemma draw_accepted (e : PointerEvent) (s : State) :
  isDrawing s = true ->
  isConnected s = true ->
  exists canvas,
    draw e s
    = setCanvasRef canvas
        (setCurrentStroke (currentStroke s ++ [getCanvasCoordinates e s]) s)
    /\ canvasRect canvas = canvasRect (canvasRef s).
Proof.
  intros Hd Hc; unfold draw; rewrite Hd, Hc; cbn [negb orb].
  unfold getContext, putContext; cbn [canvasRef setCurrentStroke].
  destruct s as [? ? ? ? ? ? ? ? ? cv ? ?]; cbn in *.
  destruct cv as [canvas|]; [destruct (context2d canvas) as [ctx|]|];
    eexists; split; reflexivity.
Qed.

(** ** Brush by kind *)




(** ** Inbound strokes *)

(** C1 (as the code has it).  A draw message from another participant,
    carrying a stroke, is rendered and nothing more: the handler leaves the
    history and the channel (so what this replica has published) as they
    were, and, with a context and at least one point, it returns normally
    with the stroke's points stroked in order over the previous bitmap.
    The stroke is not appended to the history. *)
Theorem remote_stroke_rendered_not_recorded (user : AuthUser.t)
  (message : Message.t) (data : DrawingData.t) (s : State) :
  Message.type message = "draw" ->
  Message.userId message <> AuthUser.id user ->
  Message.data message = DrawPayload data ->
  drawingHistory (stateOf (onMessage user message s)) = drawingHistory s
  /\ channelRef (stateOf (onMessage user message s)) = channelRef s
  /\ publishedBy (stateOf (onMessage user message s)) = publishedBy s
  /\ forall ctx p0 rest,
       getContext s = Some ctx ->
       DrawingData.points data = p0 :: rest ->
       exists s' brush,
         onMessage user message s = Normal s'
         /\ surface s'
            = Some (Stroked (bitmap ctx) brush
                      (MoveTo p0 :: map LineTo (p0 :: rest))).
Proof.
  intros Ht Hu Hd.
  assert (Hm : onMessage user message s = drawRemoteStroke data s).
  { unfold onMessage; rewrite Ht, Hd.
    apply String.eqb_neq in Hu; now rewrite Hu. }
  rewrite Hm; repeat split.
  - apply drawRemoteStroke_drawingHistory.
  - apply drawRemoteStroke_channelRef.
  - unfold publishedBy; now rewrite drawRemoteStroke_channelRef.
  - intros ctx p0 rest Hctx Hpts.
    destruct (drawRemoteStroke_paints data s ctx p0 rest Hctx Hpts)
      as (ctx' & -> & Hpath & Hbm & _).
    exists (putContext ctx' s), (brushOf ctx'); split; [reflexivity|].
    rewrite (surface_putContext ctx ctx' s Hctx); now rewrite Hbm, Hpath.
Qed.

(** ** From gesture to stroke and back *)

Lemma startDrawing_inGesture (e : PointerEvent) (s : State) :
  isConnected s = true ->
  inGesture s (startDrawing e s) [getCanvasCoordinates e s].
Proof.
  intros Hc; unfold startDrawing; rewrite Hc; cbn [negb].
  unfold inGesture, getContext, putContext, getCanvasCoordinates.
  destruct s as [? ? ? ? ? ? ? ? ? cv ? ?]; cbn in *.
  destruct cv as [canvas|]; [destruct (context2d canvas) as [ctx|]|];
    cbn; now repeat split.
Qed.

Lemma draw_inGesture (e : PointerEvent) (s s1 : State) (pts : list Point) :
  inGesture s s1 pts ->
  inGesture s (draw e s1) (pts ++ [getCanvasCoordinates e s]).
Proof.
  intros (Hd & Hc & Hp & Ht & Hcol & Hsz & Hh & Hch & Hr).
  destruct (draw_accepted e s1 Hd Hc) as (canvas & -> & Hrect).
  rewrite (getCanvasCoordinates_rect e s s1 Hr).
  unfold inGesture; cbn; rewrite Hp, Hrect; now repeat split.
Qed.

Lemma run_app (user : AuthUser.t) (evs evs' : list Event) (s : State) :
  run user (evs ++ evs') s = run user evs' (run user evs s).
Proof. unfold run; apply fold_left_app. Qed.

Lemma moves_inGesture (user : AuthUser.t) (es : list PointerEvent)
  (s s1 : State) (pts : list Point) :
  inGesture s s1 pts ->
  inGesture s (run user (map PointerMove es) s1)
    (pts ++ map (fun e => getCanvasCoordinates e s) es).
Proof.
  revert s1 pts; induction es as [|e es IH]; intros s1 pts H.
  - simpl; now rewrite app_nil_r.
  - cbn [map]; rewrite run_cons; cbn [step].
    replace (pts ++ getCanvasCoordinates e s
               :: map (fun e => getCanvasCoordinates e s) es)
      with ((pts ++ [getCanvasCoordinates e s])
              ++ map (fun e => getCanvasCoordinates e s) es)
      by now rewrite <- app_assoc.
    apply IH; now apply draw_inGesture.
Qed.

(** The end of a gesture: the sampled points, with the tool's kind and the
    configured colour and size, go to the end of the history, and to the
    channel when there is one. *)
Lemma stopDrawing_commits (user : AuthUser.t) (now_id now_ts : Z)
  (s s1 : State) (p0 : Point) (pts : list Point) :
  inGesture s s1 (p0 :: pts) ->
  let data :=
    DrawingData.mk (toString now_id)
      (match tool s with pen => draw_type | eraser => erase_type end)
      (p0 :: pts) (color s) (size s) now_ts in
  drawingHistory (stopDrawing user now_id now_ts s1) = drawingHistory s ++ [data]
  /\ canvasRef (stopDrawing user now_id now_ts s1) = canvasRef s1
  /\ isDrawing (stopDrawing user now_id now_ts s1) = false
  /\ (forall channel, channelRef s = Some channel ->
      publishedBy (stopDrawing user now_id now_ts s1)
      = published channel
          ++ [Message.mk "draw" (AuthUser.id user) (DrawPayload data)]).
Proof.
  intros (Hd & Hc & Hp & Ht & Hcol & Hsz & Hh & Hch & Hr) data; subst data.
  unfold stopDrawing, publishedBy; rewrite Hd, Hc, Hp.
  cbn [negb orb length Nat.eqb tool color size currentStroke drawingHistory
    channelRef setIsDrawing setDrawingHistory].
  rewrite Hp, Ht, Hcol, Hsz, Hh, Hch.
  destruct (channelRef s) as [channel|]; cbn; repeat split;
    try reflexivity; intros ? [= <-]; reflexivity.
Qed.

(** A gesture made while connected and not interrupted ([startDrawing],
    any number of [draw]s, [stopDrawing], with no other event in between)
    commits one stroke holding exactly the sampled canvas points, in
    order, with the configured colour and size and the kind of the tool;
    that record is what is published.  Replaying the record
    ([drawRemoteStroke], on any replica with a context) draws lines to
    exactly those points in that order, composited by the kind. *)
Lemma uninterrupted_gesture_round_trip (user : AuthUser.t) (e0 : PointerEvent)
  (es : list PointerEvent) (now_id now_ts : Z) (s : State) :
  isConnected s = true ->
  let samples := map (fun e => getCanvasCoordinates e s) (e0 :: es) in
  let s' :=
    run user
      (PointerDown e0 :: map PointerMove es ++ [PointerUp now_id now_ts]) s in
  exists data,
    drawingHistory s' = drawingHistory s ++ [data]
    /\ DrawingData.points data = samples
    /\ DrawingData.color data = color s
    /\ DrawingData.size data = size s
    /\ DrawingData.type data
       = match tool s with pen => draw_type | eraser => erase_type end
    /\ (forall channel, channelRef s = Some channel ->
        publishedBy s'
        = published channel
            ++ [Message.mk "draw" (AuthUser.id user) (DrawPayload data)])
    /\ forall r rctx,
         getContext r = Some rctx ->
         exists rctx',
           drawRemoteStroke data r = Normal (putContext rctx' r)
           /\ lineToPoints (path rctx') = samples
           /\ globalCompositeOperation rctx'
              = match tool s with
                | pen => source_over
                | eraser => destination_out
                end.
Proof.
  intros Hc samples s'; subst samples s'.
  rewrite run_cons, run_app; cbn [step run fold_left map].
  pose proof (moves_inGesture user es s _ _ (startDrawing_inGesture e0 s Hc))
    as Hg.
  cbn [app] in Hg.
  destruct (stopDrawing_commits user now_id now_ts s _ _ _ Hg)
    as (Hh & _ & _ & Hpub).
  eexists; split; [exact Hh|].
  cbn [DrawingData.points DrawingData.color DrawingData.size DrawingData.type].
  repeat split; [exact Hpub|].
  intros r rctx Hr.
  match goal with
  | |- context [drawRemoteStroke ?d r] =>
      destruct (drawRemoteStroke_paints d r rctx _ _ Hr eq_refl)
        as (rctx' & Hdraw & Hpath & _ & Hbr)
  end.
  exists rctx'; split; [exact Hdraw|]; rewrite Hpath.
  cbn [lineToPoints]; rewrite lineToPoints_map; split; [reflexivity|].
  cbn [DrawingData.type DrawingData.color DrawingData.size] in Hbr.
  change (globalCompositeOperation rctx') with (brush_op (brushOf rctx')).
  rewrite Hbr; now destruct (tool s).
Qed.

(** C4, on the code.  The samples of a gesture are not all retained when
    an earlier publish settles while the pointer is down: the
    continuation of the earlier [stopDrawing] runs [setCurrentStroke([])]
    and wipes the samples taken so far.  From a state in the middle of a
    gesture (drawing, connected, at least one sample taken), after the
    settlement, one more move and the release, the committed stroke holds
    the last sample only, not the samples of the gesture. *)
Theorem settle_during_gesture_drops_samples (user : AuthUser.t)
  (e : PointerEvent) (now_id now_ts : Z) (s : State) :
  isDrawing s = true ->
  isConnected s = true ->
  currentStroke s <> [] ->
  exists d,
    drawingHistory
      (run user [DrawPublishSettled Fulfilled; PointerMove e;
                 PointerUp now_id now_ts] s)
    = drawingHistory s ++ [d]
    /\ DrawingData.points d = [getCanvasCoordinates e s]
    /\ DrawingData.points d <> currentStroke s ++ [getCanvasCoordinates e s].
Proof.
  intros Hd Hc Hne.
  cbn [run fold_left step stopDrawingSettled stateOf].
  assert (Hg : inGesture s (setCurrentStroke [] s) []).
  { unfold inGesture; cbn; auto 10. }
  pose proof (draw_inGesture e s _ _ Hg) as Hg1; cbn [app] in Hg1.
  destruct (stopDrawing_commits user now_id now_ts s _ _ _ Hg1) as (Hh & _).
  eexists; split; [exact Hh|]; cbn [DrawingData.points].
  split; [reflexivity|].
  destruct (currentStroke s) as [|q qs]; [now elim Hne|].
  intros H; apply (f_equal (@length Point)) in H.
  rewrite length_app in H; simpl in H; lia.
Qed.

(** ** Publishing a committed stroke *)

(** C5.  [stopDrawing] appends the stroke to the history before it
    publishes, and does not touch the canvas.  When the publish promise
    settles, either way, the history still ends with the stroke, the canvas
    (on which [draw] rendered the stroke) is the same, and the list of
    publish calls is the same: one call for the stroke, none added.  After a
    rejection the state is exactly the one the handler left at its
    [await]. *)
Theorem failed_publish_keeps_local_stroke (user : AuthUser.t)
  (now_id now_ts : Z) (r : Settled) (s : State) (p0 : Point)
  (pts : list Point) :
  isDrawing s = true ->
  isConnected s = true ->
  currentStroke s = p0 :: pts ->
  let data :=
    DrawingData.mk (toString now_id)
      (match tool s with pen => draw_type | eraser => erase_type end)
      (p0 :: pts) (color s) (size s) now_ts in
  let s1 := stopDrawing user now_id now_ts s in
  let s2 := stateOf (stopDrawingSettled r s1) in
  drawingHistory s2 = drawingHistory s ++ [data]
  /\ canvasRef s2 = canvasRef s
  /\ surface s2 = surface s
  /\ publishedBy s2 = publishedBy s1
  /\ (forall channel, channelRef s = Some channel ->
      publishedBy s2
      = published channel
          ++ [Message.mk "draw" (AuthUser.id user) (DrawPayload data)])
  /\ (r = Rejected -> stopDrawingSettled r s1 = Thrown s1).
Proof.
  intros Hd Hc Hp data s1 s2.
  assert (Hg : inGesture s s (p0 :: pts)) by (unfold inGesture; auto 10).
  destruct (stopDrawing_commits user now_id now_ts s s p0 pts Hg)
    as (Hh & Hcv & _ & Hpub).
  fold data in Hh, Hpub; fold s1 in Hh, Hcv, Hpub.
  assert (H2 : drawingHistory s2 = drawingHistory s1
               /\ canvasRef s2 = canvasRef s1
               /\ channelRef s2 = channelRef s1)
    by (subst s2; destruct r; repeat split; reflexivity).
  destruct H2 as (Hh2 & Hcv2 & Hch2).
  assert (Hp2 : publishedBy s2 = publishedBy s1)
    by (unfold publishedBy; now rewrite Hch2).
  repeat split.
  - now rewrite Hh2.
  - now rewrite Hcv2.
  - unfold surface, getContext; now rewrite Hcv2, Hcv.
  - exact Hp2.
  - intros channel Hch; rewrite Hp2; now apply Hpub.
  - now intros ->.
Qed.

(** ** Undo *)

(** With a context, [handleUndo] on a non-empty history ends as
    [clearCanvas] does: [redrawCanvas] calls [clearCanvas], which empties
    the history, and then replays the history it finds, which is empty. *)
Lemma handleUndo_with_context (s : State) (ctx : Context2D) :
  getContext s = Some ctx ->
  drawingHistory s <> [] ->
  handleUndo s = Normal (clearCanvas s).
Proof.
  intros Hctx Hne; unfold handleUndo.
  destruct (drawingHistory s) as [|d h] eqn:Hh; [contradiction|].
  cbn [length Nat.eqb]; unfold redrawCanvas.
  replace (getContext (setDrawingHistory (removelast (d :: h)) s))
    with (Some ctx) by (rewrite <- Hctx; reflexivity).
  unfold clearCanvas.
  replace (getContext (setDrawingHistory (removelast (d :: h)) s))
    with (Some ctx) by (rewrite <- Hctx; reflexivity).
  rewrite Hctx; unfold putContext.
  destruct s as [? ? ? ? ? ? ? ? ? cv ? ?]; cbn in *.
  destruct cv; reflexivity.
Qed.

Lemma handleUndo_empties_history (s : State) (ctx : Context2D) :
  getContext s = Some ctx ->
  drawingHistory s <> [] ->
  drawingHistory (stateOf (handleUndo s)) = [].
Proof.
  intros Hctx Hne; rewrite (handleUndo_with_context s ctx Hctx Hne).
  unfold clearCanvas; now rewrite Hctx.
Qed.

(** Without a context nothing is redrawn, and only the last entry goes. *)
Lemma handleUndo_without_context (s : State) :
  getContext s = None ->
  handleUndo s
  = Normal (if (length (drawingHistory s) =? 0)%nat then s
            else setDrawingHistory (removelast (drawingHistory s)) s).
Proof.
  intros Hctx; unfold handleUndo, redrawCanvas.
  destruct (length (drawingHistory s) =? 0)%nat; [reflexivity|].
  replace (getContext (setDrawingHistory _ s)) with (@None Context2D)
    by (rewrite <- Hctx; reflexivity).
  reflexivity.
Qed.

(** Undo is local: it publishes nothing. *)
Lemma handleUndo_publishes_nothing (s : State) :
  publishedBy (stateOf (handleUndo s)) = publishedBy s.
Proof. unfold publishedBy; now rewrite handleUndo_channelRef. Qed.

(** C2, on the code.  On a replica whose canvas has a context,
    [handleUndo] on a history of two or more strokes returns as
    [clearCanvas] does: the history is left empty, which is neither of
    length n - 1 nor the history without its last entry.  It publishes
    nothing. *)
Theorem undo_discards_whole_history (s : State) (ctx : Context2D) :
  getContext s = Some ctx ->
  (2 <= length (drawingHistory s))%nat ->
  handleUndo s = Normal (clearCanvas s)
  /\ drawingHistory (stateOf (handleUndo s)) = []
  /\ length (drawingHistory (stateOf (handleUndo s)))
     <> (length (drawingHistory s) - 1)%nat
  /\ drawingHistory (stateOf (handleUndo s)) <> removelast (drawingHistory s)
  /\ publishedBy (stateOf (handleUndo s)) = publishedBy s.
Proof.
  intros Hctx Hlen.
  assert (Hne : drawingHistory s <> [])
    by (intros H; rewrite H in Hlen; simpl in Hlen; lia).
  pose proof (handleUndo_empties_history s ctx Hctx Hne) as Hempty.
  split; [now apply (handleUndo_with_context s ctx)|].
  split; [exact Hempty|].
  rewrite Hempty; repeat split.
  - simpl; lia.
  - destruct (drawingHistory s) as [|a [|b h]]; simpl in Hlen; try lia.
    discriminate.
  - apply handleUndo_publishes_nothing.
Qed.

(** ** Clear *)

Lemma handleClear_not_connected (user : AuthUser.t) (s : State) :
  isConnected s = false -> handleClear user s = s.
Proof. intros H; unfold handleClear; now rewrite H. Qed.

(** On a connected replica whose canvas has a context and which holds a
    channel, [handleClear] leaves the history empty and publishes one
    clear message; and when the context composites [source-over] at that
    moment, the bitmap is the white fill. *)
Lemma clear_when_connected (user : AuthUser.t) (s : State)
  (ctx : Context2D) (channel : Channel) :
  isConnected s = true ->
  getContext s = Some ctx ->
  channelRef s = Some channel ->
  length (drawingHistory (handleClear user s)) = 0%nat
  /\ publishedBy (handleClear user s)
     = published channel
         ++ [Message.mk "clear" (AuthUser.id user) EmptyPayload]
  /\ (globalCompositeOperation ctx = source_over ->
      surface (handleClear user s) = Some (Solid "#ffffff")).
Proof.
  intros Hc Hctx Hch; unfold handleClear; rewrite Hc; cbn [negb].
  rewrite clearCanvas_channelRef, Hch.
  unfold clearCanvas; rewrite Hctx.
  repeat split.
  intros Hop; unfold surface.
  match goal with
  | |- context [getContext (setChannelRef ?c (setDrawingHistory [] ?x))] =>
      change (getContext (setChannelRef c (setDrawingHistory [] x)))
        with (getContext x)
  end.
  rewrite (getContext_putContext ctx _ s Hctx).
  unfold fillRectCanvas; cbn [globalCompositeOperation set_fillStyle].
  now rewrite Hop.
Qed.

(** Whatever is drawn with the eraser, locally or from the channel,
    leaves the context compositing [destination-out]. *)
Lemma eraser_leaves_destination_out (e : PointerEvent) (s : State)
  (ctx : Context2D) :
  isDrawing s = true ->
  isConnected s = true ->
  getContext s = Some ctx ->
  tool s = eraser ->
  exists ctx',
    getContext (draw e s) = Some ctx'
    /\ globalCompositeOperation ctx' = destination_out.
Proof.
  intros Hd Hc Hctx Ht.
  destruct (draw_paints e s ctx Hd Hc Hctx) as (ctx' & -> & _ & _ & Hbr).
  exists ctx'; split.
  - apply (getContext_putContext ctx); rewrite <- Hctx; reflexivity.
  - change (brush_op (brushOf ctx') = destination_out).
    now rewrite Hbr, Ht.
Qed.

(** C3, on the code.  [clearCanvas] assigns the fill style and fills the
    canvas, but does not set the compositing mode back.  On a connected
    replica whose context still composites [destination-out] (the state
    any eraser stroke leaves), [handleClear] empties the history and
    publishes the clear message, but the white rectangle cuts the bitmap
    out instead of covering it: every pixel is left transparent, and the
    surface is not the white fill. *)
Theorem clear_after_erase_is_not_white (user : AuthUser.t) (s : State)
  (ctx : Context2D) (channel : Channel) :
  isConnected s = true ->
  getContext s = Some ctx ->
  channelRef s = Some channel ->
  globalCompositeOperation ctx = destination_out ->
  surface (handleClear user s) = Some Transparent
  /\ surface (handleClear user s) <> Some (Solid "#ffffff")
  /\ length (drawingHistory (handleClear user s)) = 0%nat
  /\ publishedBy (handleClear user s)
     = published channel
         ++ [Message.mk "clear" (AuthUser.id user) EmptyPayload].
Proof.
  intros Hc Hctx Hch Hop.
  destruct (clear_when_connected user s ctx channel Hc Hctx Hch)
    as (Hh & Hp & _).
  assert (Hs : surface (handleClear user s) = Some Transparent).
  { unfold handleClear; rewrite Hc; cbn [negb].
    rewrite clearCanvas_channelRef, Hch.
    unfold clearCanvas; rewrite Hctx; unfold surface.
    match goal with
    | |- context [getContext (setChannelRef ?c (setDrawingHistory [] ?x))] =>
        change (getContext (setChannelRef c (setDrawingHistory [] x)))
          with (getContext x)
    end.
    rewrite (getContext_putContext ctx _ s Hctx).
    unfold fillRectCanvas; cbn [globalCompositeOperation set_fillStyle].
    now rewrite Hop. }
  rewrite Hs; repeat split; [discriminate | exact Hh | exact Hp].
Qed.

End Properties.

(** * Worked sessions *)

Section WorkedSessions.

#[local] Existing Instance hexBrowser.

(** The evaluated states are the states of the sessions. *)
Example sessions_evaluated :
  aliceAfterRed = run alice redLine (connected alice)
  /\ aliceAfterTwo = run alice (redLine ++ secondLine) (connected alice)
  /\ aliceAfterErasure = run alice erasure (connected alice)
  /\ bobConnected = connected bob
  /\ aliceConnected = connected alice
  /\ alicePending = mounted alice
  /\ aliceDragging
     = run alice [PointerDown (mouseAt 8%float 16%float);
                  PointerMove (mouseAt 18%float 26%float)] (connected alice)
  /\ aliceErasing
     = run alice [ToolPicked eraser; PointerDown (mouseAt 8%float 16%float)]
         (connected alice).
Proof. repeat split; vm_compute; reflexivity. Qed.

(** After mounting, the canvas is white and nothing is connected yet. *)
Example mounted_is_blank :
  surface (mounted alice) = Some (Solid "#ffffff")
  /\ isConnected (mounted alice) = false
  /\ isConnected (connected alice) = true.
Proof. vm_compute; repeat split. Qed.

(** The scenario of the specification: a red line from (0, 0) to (10, 10)
    at width 3 is committed and published as such. *)
Example alice_publishes_redMessage :
  publishedBy aliceAfterRed = [redMessage]
  /\ drawingHistory aliceAfterRed = [redStroke].
Proof. split; reflexivity. Qed.

(** C1, counterexample.  Alice commits and publishes the red stroke; Bob,
    connected, with a canvas, receives that very message.  His history is
    still empty: the stroke is not in it. *)
Lemma remote_stroke_missing_from_history :
  publishedBy (run alice redLine (connected alice)) = [redMessage]
  /\ drawingHistory (stateOf (onMessage bob redMessage (connected bob))) = []
  /\ ~ In redStroke
         (drawingHistory (stateOf (onMessage bob redMessage (connected bob)))).
Proof. vm_compute; repeat split; intros []. Qed.

(** Bob receives Alice's red stroke: it is her message, not his, and his
    history and channel are as before. *)
Lemma remote_stroke_rendered_not_recorded_witness :
  Message.type redMessage = "draw"
  /\ Message.userId redMessage <> AuthUser.id bob
  /\ Message.data redMessage = DrawPayload redStroke
  /\ drawingHistory (stateOf (onMessage bob redMessage bobConnected))
     = drawingHistory bobConnected
  /\ publishedBy (stateOf (onMessage bob redMessage bobConnected))
     = publishedBy bobConnected.
Proof.
  assert (Hu : Message.userId redMessage <> AuthUser.id bob)
    by (intros H; discriminate H).
  pose proof (remote_stroke_rendered_not_recorded bob redMessage redStroke
                bobConnected eq_refl Hu eq_refl) as (Hh & _ & Hp & _).
  exact (conj eq_refl (conj Hu (conj eq_refl (conj Hh Hp)))).
Defined.

(** Alice, connected, with a canvas, has committed two strokes;
    [handleUndo] returns with an empty history (not the first stroke
    alone), and has published nothing. *)
Example undo_after_two_strokes :
  length (drawingHistory (run alice (redLine ++ secondLine) (connected alice)))
  = 2%nat
  /\ drawingHistory
       (stateOf (handleUndo (run alice (redLine ++ secondLine) (connected alice))))
     = []
  /\ removelast
       (drawingHistory (run alice (redLine ++ secondLine) (connected alice)))
     = [redStroke]
  /\ publishedBy
       (stateOf (handleUndo (run alice (redLine ++ secondLine) (connected alice))))
     = publishedBy (run alice (redLine ++ secondLine) (connected alice)).
Proof. vm_compute; repeat split. Qed.

(** Alice's [subscribe] is still pending; [handleClear] returns at its
    guard and nothing is published. *)
Example clear_not_published_unless_connected :
  isConnected (mounted alice) = false
  /\ handleClear alice (mounted alice) = mounted alice
  /\ publishedBy (handleClear alice (mounted alice)) = [].
Proof. vm_compute; repeat split. Qed.

(** What [clearCanvas] leaves after an erase stroke was rendered: the
    context still composites [destination-out], so the white rectangle
    cuts the bitmap out instead of covering it. *)
Example clear_after_erasure :
  surface (handleClear alice (run alice erasure (connected alice)))
  = Some Transparent
  /\ drawingHistory (handleClear alice (run alice erasure (connected alice)))
     = [].
Proof. vm_compute; split; reflexivity. Qed.

(** Alice after her two strokes: Undo leaves her nothing, where dropping
    the last entry would leave the red stroke. *)
Lemma undo_discards_whole_history_witness :
  length (drawingHistory aliceAfterTwo) = 2%nat
  /\ drawingHistory (stateOf (handleUndo aliceAfterTwo)) = []
  /\ removelast (drawingHistory aliceAfterTwo) = [redStroke].
Proof.
  pose proof (undo_discards_whole_history aliceAfterTwo _ eq_refl (le_n 2))
    as (_ & Hempty & _).
  exact (conj eq_refl (conj Hempty eq_refl)).
Defined.

(** Three strokes, then Undo twice: the first Undo has already emptied the
    history, the second finds nothing to do. *)
Example three_strokes_two_undos :
  drawingHistory
    (run alice (redLine ++ secondLine ++ thirdLineAndUndos) (connected alice))
  = []
  /\ length (publishedBy
               (run alice (redLine ++ secondLine ++ thirdLineAndUndos)
                  (connected alice)))
     = 3%nat.
Proof. vm_compute; split; reflexivity. Qed.

(** Alice, connected, after her red stroke (drawn with the pen, so the
    context composites [source-over]), clears. *)
Example clear_after_pen_stroke :
  isConnected aliceAfterRed = true
  /\ length (drawingHistory (handleClear alice aliceAfterRed)) = 0%nat
  /\ surface (handleClear alice aliceAfterRed) = Some (Solid "#ffffff").
Proof.
  pose proof (clear_when_connected alice aliceAfterRed _ _
                eq_refl eq_refl eq_refl) as (Hh & _ & Hs).
  exact (conj eq_refl (conj Hh (Hs eq_refl))).
Defined.

(** Bob has drawn nothing; Undo changes nothing. *)
Lemma undo_on_empty_history_is_noop_witness :
  drawingHistory bobConnected = []
  /\ handleUndo bobConnected = Normal bobConnected
  /\ surface (stateOf (handleUndo bobConnected)) = surface bobConnected.
Proof.
  pose proof (undo_on_empty_history_is_noop bobConnected eq_refl)
    as (Hn & _ & Hs).
  exact (conj eq_refl (conj Hn Hs)).
Defined.

(** Bob receives a draw message without points. *)
Lemma empty_stroke_message_is_dropped_witness :
  Message.type emptyMessage = "draw"
  /\ DrawingData.points emptyStroke = []
  /\ onMessage bob emptyMessage bobConnected = Normal bobConnected.
Proof.
  exact (conj eq_refl (conj eq_refl
           (empty_stroke_message_is_dropped bob emptyMessage emptyStroke
              bobConnected eq_refl eq_refl eq_refl))).
Defined.

(** Alice drags while her [subscribe] is pending. *)
Lemma gestures_ignored_unless_connected_witness :
  isConnected alicePending = false
  /\ startDrawing (mouseAt 8%float 16%float) alicePending = alicePending
  /\ run alice drag alicePending = alicePending.
Proof.
  pose proof (gestures_ignored_unless_connected alice
                (mouseAt 8%float 16%float) 1000 1000 drag alicePending
                eq_refl) as (Hs & _ & _ & Hr).
  exact (conj eq_refl (conj Hs (Hr eq_refl))).
Defined.


(** Alice's drag commits the two canvas points it sampled. *)
Example drag_commits_samples :
  isConnected aliceConnected = true
  /\ exists data,
       drawingHistory (run alice drag aliceConnected) = [data]
       /\ DrawingData.points data
          = [mkPoint 0%float 0%float; mkPoint 10%float 10%float].
Proof.
  split; [reflexivity|].
  destruct (uninterrupted_gesture_round_trip alice (mouseAt 8%float 16%float)
              [mouseAt 18%float 26%float] 1000 1000 aliceConnected eq_refl)
    as (data & Hh & Hp & _).
  exists data; split; [exact Hh | exact Hp].
Qed.

(** Alice has sampled (20, 20) and (30, 20) when the publish of her red
    stroke settles; she moves on to (40, 20) and lets go.  The stroke
    committed holds (40, 20) alone. *)
Lemma settle_during_gesture_drops_samples_witness :
  isDrawing aliceSecondDrag = true
  /\ currentStroke aliceSecondDrag
     = [mkPoint 20%float 20%float; mkPoint 30%float 20%float]
  /\ exists d,
       drawingHistory
         (run alice [DrawPublishSettled Fulfilled;
                     PointerMove (mouseAt 48%float 36%float);
                     PointerUp 2000 2000] aliceSecondDrag)
       = drawingHistory aliceSecondDrag ++ [d]
       /\ DrawingData.points d = [mkPoint 40%float 20%float].
Proof.
  assert (Hne : currentStroke aliceSecondDrag <> []) by discriminate.
  destruct (settle_during_gesture_drops_samples alice
              (mouseAt 48%float 36%float) 2000 2000 aliceSecondDrag
              eq_refl eq_refl Hne) as (d & Hh & Hp & _).
  exact (conj eq_refl (conj eq_refl (ex_intro _ d (conj Hh Hp)))).
Defined.

(** Alice clears after her erasure: the context still composites
    [destination-out], and the canvas is left transparent. *)
Lemma clear_after_erase_is_not_white_witness :
  isConnected aliceAfterErasure = true
  /\ surface (handleClear alice aliceAfterErasure) = Some Transparent
  /\ surface (handleClear alice aliceAfterErasure) <> Some (Solid "#ffffff").
Proof.
  pose proof (clear_after_erase_is_not_white alice aliceAfterErasure _ _
                eq_refl eq_refl eq_refl eq_refl) as (Ht & Hw & _).
  exact (conj eq_refl (conj Ht Hw)).
Defined.


(** Alice releases the pointer and the publish is rejected. *)
Lemma failed_publish_keeps_local_stroke_witness :
  isDrawing aliceDragging = true
  /\ isConnected aliceDragging = true
  /\ drawingHistory
       (stateOf (stopDrawingSettled Rejected
                   (stopDrawing alice 1000 1000 aliceDragging)))
     = [DrawingData.mk "1000" draw_type
          [mkPoint 0%float 0%float; mkPoint 10%float 10%float]
          "#000000" 3%float 1000]
  /\ surface
       (stateOf (stopDrawingSettled Rejected
                   (stopDrawing alice 1000 1000 aliceDragging)))
     = surface aliceDragging.
Proof.
  pose proof (failed_publish_keeps_local_stroke alice 1000 1000 Rejected
                aliceDragging _ _ eq_refl eq_refl eq_refl)
    as (Hh & _ & Hs & _).
  exact (conj eq_refl (conj eq_refl (conj Hh Hs))).
Defined.

(** Two snapshots and a stroke in between: the count follows the last
    snapshot. *)
Example count_follows_last_snapshot :
  onlineCount
    (run alice
       (PresenceReceived [aliceEntry; bobEntry] :: redLine
          ++ [PresenceReceived [aliceEntry]])
       (connected alice))
  = 1%nat.
Proof. vm_compute; reflexivity. Qed.

End WorkedSessions.

(** * Further properties *)

Section FurtherProperties.

Context {browser : Browser}.

(** ** Display names *)

Lemma beforeAt_no_at (s : string) : containsAt (beforeAt s) = false.
Proof.
  induction s as [|c s IH]; [reflexivity|]; simpl.
  destruct (Ascii.eqb c "@") eqn:Hc; [reflexivity|]; simpl.
  now rewrite Hc.
Qed.

Lemma beforeAt_local_part (name domain : string) :
  containsAt name = false ->
  beforeAt (name ++ String "@"%char domain)%string = name.
Proof.
  induction name as [|c name IH]; simpl.
  - reflexivity.
  - intros H; apply orb_false_elim in H as [Hc Hrest].
    rewrite Hc; now rewrite IH.
Qed.

(** X1.  The name a user is greeted with and subscribed under is never
    empty and has no ['@'] in it, whatever the e-mail address is (absent,
    empty, starting with ['@'], without ['@']); the account's own
    [displayName] plays no part. *)
Theorem display_name_well_formed (user : AuthUser.t) (other : option string) :
  displayNameOf user <> ""
  /\ containsAt (displayNameOf user) = false
  /\ displayNameOf
       (AuthUser.mk (AuthUser.id user) (AuthUser.email user) other)
     = displayNameOf user.
Proof.
  unfold displayNameOf; simpl.
  destruct (AuthUser.email user) as [e|]; [|repeat split; discriminate].
  destruct (beforeAt e =? "") eqn:He.
  - repeat split; discriminate.
  - repeat split; [now apply String.eqb_neq | apply beforeAt_no_at].
Qed.

(** X2.  For an address [name@domain] whose [name] is not empty and has
    no ['@'], the display name is [name]. *)
Theorem display_name_is_local_part (id name domain : string)
  (dn : option string) :
  name <> "" ->
  containsAt name = false ->
  displayNameOf (AuthUser.mk id (Some (name ++ String "@"%char domain)%string) dn) = name.
Proof.
  intros Hne Hat; unfold displayNameOf; simpl.
  rewrite (beforeAt_local_part name domain Hat).
  apply String.eqb_neq in Hne; now rewrite Hne.
Qed.

(** X3.  The presence entry a replica subscribes with carries its user id,
    and the online users list shows it under the very name the header
    greets the user with. *)
Theorem presence_entry_shows_display_name (user : AuthUser.t) (s : State) :
  exists entry,
    channelRef (connectEffect user s)
    = Some (mkChannel "whiteboard-room" (Some entry) [])
    /\ User.userId entry = AuthUser.id user
    /\ shownName entry = displayNameOf user.
Proof.
  eexists; split; [reflexivity|]; split; [reflexivity|].
  unfold shownName; simpl.
  destruct (display_name_well_formed user None) as (Hne & _).
  apply String.eqb_neq in Hne; now rewrite Hne.
Qed.

(** ** Messages that change nothing *)

(** X4.  The handler returns normally with the state as it was, whatever
    the message carries, for a draw message that echoes the replica's own
    id and for a message of any type other than draw and clear.  A draw
    message that carries no stroke also changes nothing: from another
    sender it throws when there is a context (reading [length] of
    [undefined]) and returns normally when there is none. *)
Theorem onMessage_ignores (user : AuthUser.t) (message : Message.t)
  (s : State) :
  ((Message.type message = "draw"
    /\ Message.userId message = AuthUser.id user)
   \/ (Message.type message <> "draw" /\ Message.type message <> "clear") ->
   onMessage user message s = Normal s)
  /\ (Message.type message = "draw" ->
      Message.data message = EmptyPayload ->
      stateOf (onMessage user message s) = s
      /\ (getContext s = None -> onMessage user message s = Normal s)
      /\ (Message.userId message <> AuthUser.id user ->
          getContext s <> None ->
          onMessage user message s = Thrown s)).
Proof.
  unfold onMessage; split.
  - intros [[Ht Hu]|[Ht Hc]].
    + rewrite Ht, Hu, !String.eqb_refl; reflexivity.
    + apply String.eqb_neq in Ht, Hc; rewrite Ht, Hc; reflexivity.
  - intros Ht Hd; rewrite Ht, Hd, String.eqb_refl; cbn [andb].
    destruct (Message.userId message =? AuthUser.id user) eqn:Hu; cbn [negb].
    + repeat split; try reflexivity.
      intros Hne; apply String.eqb_neq in Hne; congruence.
    + destruct (getContext s); repeat split; try reflexivity;
        try discriminate; intros; congruence.
Qed.

(** ** After the pointer is released *)

(** X5.  [onMouseUp] and [onMouseLeave] both call [stopDrawing]: the second
    call finds the state the first one left and changes nothing, so a
    release commits and publishes at most one stroke.  After a release,
    pointer moves draw nothing, with one exception: on a replica that is
    drawing and connected with no sample in the stroke in progress (as a
    publish that settles during the gesture leaves it), [stopDrawing]
    returns at its guard before [setIsDrawing(false)]; it commits nothing,
    the gesture goes on without the button, and the next move is sampled
    again. *)
Theorem release_ends_gesture_unless_emptied (user : AuthUser.t)
  (a b c d : Z) (e : PointerEvent) (s : State) :
  stopDrawing user c d (stopDrawing user a b s) = stopDrawing user a b s
  /\ (currentStroke s <> [] \/ isDrawing s = false \/ isConnected s = false ->
      draw e (stopDrawing user a b s) = stopDrawing user a b s)
  /\ (isDrawing s = true -> isConnected s = true -> currentStroke s = [] ->
      stopDrawing user a b s = s
      /\ isDrawing (stopDrawing user a b s) = true
      /\ currentStroke (draw e (stopDrawing user a b s))
         = [getCanvasCoordinates e s]).
Proof.
  split; [|split].
  - unfold stopDrawing at 2 3.
    destruct (negb (isDrawing s) || negb (isConnected s)
              || (length (currentStroke s) =? 0)%nat) eqn:Hg.
    + unfold stopDrawing; now rewrite Hg.
    + unfold stopDrawing; destruct (channelRef _); reflexivity.
  - intros H; unfold stopDrawing.
    destruct (isDrawing s) eqn:Hd; simpl;
      [|unfold draw; now rewrite Hd].
    destruct (isConnected s) eqn:Hc; simpl;
      [|unfold draw; rewrite Hc; now rewrite orb_true_r].
    destruct H as [Hne|[H|H]]; try discriminate.
    destruct (currentStroke s) as [|p0 pts]; [contradiction|]; simpl.
    destruct (channelRef _); reflexivity.
  - intros Hd Hc Hcs.
    assert (Hs : stopDrawing user a b s = s)
      by (unfold stopDrawing; rewrite Hd, Hc, Hcs; reflexivity).
    rewrite Hs; split; [reflexivity|]; split; [exact Hd|].
    destruct (draw_accepted e s Hd Hc) as (canvas & -> & _).
    cbn; now rewrite Hcs.
Qed.

(** ** Redraw *)

Lemma clearCanvas_without_context (s : State) :
  getContext s = None -> clearCanvas s = s.
Proof. intros H; unfold clearCanvas; now rewrite H. Qed.

Lemma redrawCanvas_eq (s : State) : redrawCanvas s = Normal (clearCanvas s).
Proof.
  unfold redrawCanvas.
  destruct (getContext s) as [ctx|] eqn:Hctx.
  - assert (Hh : drawingHistory (clearCanvas s) = [])
      by (unfold clearCanvas; now rewrite Hctx).
    now rewrite Hh.
  - now rewrite (clearCanvas_without_context s Hctx).
Qed.

(** X6.  [redrawCanvas] ends as [clearCanvas] does, in every state: it
    returns normally, replays no stroke of the history it was called
    with, and with a context leaves the history empty and the bitmap as
    the fill left it, with no stroke on it. *)
Theorem redrawCanvas_is_clearCanvas (s : State) :
  redrawCanvas s = Normal (clearCanvas s)
  /\ (getContext s <> None ->
      drawingHistory (stateOf (redrawCanvas s)) = []
      /\ (surface (stateOf (redrawCanvas s)) = Some (Solid "#ffffff")
          \/ surface (stateOf (redrawCanvas s)) = Some Transparent)).
Proof.
  rewrite redrawCanvas_eq; split; [reflexivity|]; cbn [stateOf].
  unfold clearCanvas.
  destruct (getContext s) as [ctx|] eqn:Hctx; [intros _|intros H; now elim H].
  split; [reflexivity|].
  unfold surface.
  change (getContext (setDrawingHistory [] ?x)) with (getContext x).
  rewrite (getContext_putContext ctx _ s Hctx).
  unfold fillRectCanvas; cbn [globalCompositeOperation set_fillStyle].
  destruct (globalCompositeOperation ctx); [left|right]; reflexivity.
Qed.

(** ** Subscribing *)

(** X7.  A [subscribe] that settles after the cleanup ran changes nothing:
    no toast, no connection, whether it was fulfilled or rejected. *)
Theorem late_subscribe_changes_nothing (r : Settled) (s : State) :
  subscribeSettled r (disconnectEffect s) = disconnectEffect s
  /\ isConnected (subscribeSettled r (disconnectEffect s)) = isConnected s
  /\ toasts (subscribeSettled r (disconnectEffect s)) = toasts s.
Proof.
  assert (H : subscribeSettled r (disconnectEffect s) = disconnectEffect s).
  { unfold subscribeSettled, disconnectEffect; simpl.
    destruct (channelRef s); reflexivity. }
  rewrite H; unfold disconnectEffect; simpl.
  destruct (channelRef s); repeat split; reflexivity.
Qed.

(** ** What every handler keeps *)

(** Opens one callback of the event loop down to the record it returns. *)
Ltac open_step :=
  unfold subscribeSettled, onMessage, onPresence, startDrawing, draw,
    stopDrawing, stopDrawingSettled, handleClear, handleClearSettled,
    handleUndo;
  rewrite ?redrawCanvas_eq;
  unfold drawRemoteStroke, clearCanvas, getContext, putContext;
  open_handler;
  repeat match goal with
    | |- context [match ?r with Fulfilled => _ | Rejected => _ end] =>
        destruct r
    | |- context [match Message.data ?m with _ => _ end] =>
        destruct (Message.data m)
    end;
  open_handler.

Lemma step_isMounted (user : AuthUser.t) (ev : Event) (s : State) :
  isMounted (step user ev s) = isMounted s.
Proof. destruct ev; cbn [step]; open_step; reflexivity. Qed.

Lemma step_isConnected (user : AuthUser.t) (ev : Event) (s : State) :
  isConnected (step user ev s)
  = isConnected s || (isSubscribed ev && isMounted s).
Proof.
  destruct ev as [[|]|message|users|e|e|now_id now_ts|r| |r| |t|c|n];
    cbn [step isSubscribed andb]; rewrite ?orb_false_r;
    try (open_step; reflexivity).
  unfold subscribeSettled.
  destruct (isMounted s); cbn; [now rewrite orb_true_r | now rewrite orb_false_r].
Qed.

Lemma run_isMounted (user : AuthUser.t) (evs : list Event) (s : State) :
  isMounted (run user evs s) = isMounted s.
Proof.
  revert s; induction evs as [|ev evs IH]; intros s; [reflexivity|].
  now rewrite run_cons, IH, step_isMounted.
Qed.

(** ** The connection *)

Lemma run_isConnected (user : AuthUser.t) (evs : list Event) (s : State) :
  isConnected (run user evs s)
  = isConnected s || (existsb isSubscribed evs && isMounted s).
Proof.
  revert s; induction evs as [|ev evs IH]; intros s.
  - simpl; now rewrite orb_false_r.
  - rewrite run_cons, IH, step_isConnected, step_isMounted; simpl.
    destruct (isConnected s), (isSubscribed ev), (existsb isSubscribed evs),
      (isMounted s); reflexivity.
Qed.

(** X8.  After any events, a replica is connected exactly when it was
    connected before or, being mounted, saw its [subscribe] fulfilled: no
    handler ever sets [isConnected] back to false (so it stays true through
    whatever follows, a rejected publish included), and nothing but a
    fulfilled [subscribe] sets it. *)
Theorem connected_iff_subscribed (user : AuthUser.t) (evs evs' : list Event)
  (s : State) :
  isConnected (run user evs s)
  = isConnected s || (existsb isSubscribed evs && isMounted s)
  /\ isConnected (run user (evs ++ evs') s)
     = isConnected (run user evs s)
       || (existsb isSubscribed evs' && isMounted s).
Proof.
  split; [apply run_isConnected|].
  now rewrite run_app, (run_isConnected user evs'), run_isMounted.
Qed.

(** ** What a replica publishes *)

Lemma step_published (user : AuthUser.t) (ev : Event) (s : State) :
  exists l,
    publishedBy (step user ev s) = publishedBy s ++ l
    /\ Forall (ownMessage user) l
    /\ (length l <= 1)%nat
    /\ (isConnected s = false -> l = []).
Proof.
  assert (Hnil : forall s', channelRef s' = channelRef s ->
            exists l, publishedBy s' = publishedBy s ++ l
                      /\ Forall (ownMessage user) l /\ (length l <= 1)%nat
                      /\ (isConnected s = false -> l = [])).
  { intros s' H; exists []; unfold publishedBy; rewrite H, app_nil_r.
    repeat split; auto. }
  destruct ev as [r|message|users|e|e|now_id now_ts|r| |r| |t|c|n];
    cbn [step]; try (apply Hnil; open_step; reflexivity).
  - (* stopDrawing *)
    unfold stopDrawing.
    destruct (negb (isDrawing s) || negb (isConnected s)
              || (length (currentStroke s) =? 0)%nat) eqn:Hg;
      [now apply Hnil|].
    apply orb_false_elim in Hg as [Hg Hlen].
    apply orb_false_elim in Hg as [_ Hc].
    apply negb_false_iff in Hc.
    cbn [channelRef setIsDrawing setDrawingHistory].
    destruct (channelRef s) as [channel|] eqn:Hch.
    + eexists [_]; unfold publishedBy; cbn; rewrite Hch; cbn.
      split; [reflexivity|]; repeat split; auto.
      * constructor; [|constructor].
        split; [reflexivity|]; left; split; [reflexivity|].
        eexists; split; [reflexivity|]; cbn.
        intros H; rewrite H in Hlen; discriminate.
      * intros H; rewrite H in Hc; discriminate.
    + apply Hnil; cbn; now rewrite Hch.
  - (* handleClear *)
    unfold handleClear.
    destruct (isConnected s) eqn:Hc; cbn [negb]; [|now apply Hnil].
    rewrite clearCanvas_channelRef.
    destruct (channelRef s) as [channel|] eqn:Hch.
    + eexists [_]; unfold publishedBy; cbn; rewrite Hch; cbn.
      split; [reflexivity|]; repeat split; auto.
      * constructor; [|constructor].
        split; [reflexivity|]; right; split; reflexivity.
      * discriminate.
    + apply Hnil; cbn; now rewrite clearCanvas_channelRef.
Qed.

(** X9.  The list of messages a replica has published only grows, by at
    most one message per event, and every message added carries the
    replica's own user id and is either a draw message with a stroke of at
    least one point or a clear message with no data. *)
Theorem published_log_grows (user : AuthUser.t) (evs : list Event)
  (s : State) :
  exists l,
    publishedBy (run user evs s) = publishedBy s ++ l
    /\ Forall (ownMessage user) l
    /\ (length l <= length evs)%nat.
Proof.
  revert s; induction evs as [|ev evs IH]; intros s.
  - exists []; rewrite app_nil_r; repeat split; auto.
  - rewrite run_cons.
    destruct (step_published user ev s) as (l1 & H1 & F1 & L1 & _).
    destruct (IH (step user ev s)) as (l2 & H2 & F2 & L2).
    exists (l1 ++ l2); rewrite H2, H1, app_assoc.
    split; [reflexivity|]; split; [now apply Forall_app|].
    rewrite length_app; simpl; lia.
Qed.

(** ** The history *)

(** What one callback can do to the history: nothing, empty it, drop its
    last entry, or (only [stopDrawing], only when connected) append the
    stroke in progress, which is then also what it publishes. *)
Lemma step_drawingHistory (user : AuthUser.t) (ev : Event) (s : State) :
  drawingHistory (step user ev s) = drawingHistory s
  \/ drawingHistory (step user ev s) = []
  \/ drawingHistory (step user ev s) = removelast (drawingHistory s)
  \/ exists d,
       drawingHistory (step user ev s) = drawingHistory s ++ [d]
       /\ isConnected s = true
       /\ DrawingData.points d = currentStroke s
       /\ currentStroke s <> []
       /\ forall channel, channelRef s = Some channel ->
            publishedBy (step user ev s)
            = published channel
                ++ [Message.mk "draw" (AuthUser.id user) (DrawPayload d)].
Proof.
  destruct ev as [r|message|users|e|e|now_id now_ts|r| |r| |t|c|n];
    cbn [step];
    try (open_step; cbn;
         first [ left; reflexivity
               | right; left; reflexivity
               | right; right; left; reflexivity ]).
  unfold stopDrawing.
  destruct (negb (isDrawing s) || negb (isConnected s)
            || (length (currentStroke s) =? 0)%nat) eqn:Hg;
    [now left|].
  apply orb_false_elim in Hg as [Hg Hlen].
  apply orb_false_elim in Hg as [_ Hc].
  apply negb_false_iff in Hc.
  right; right; right.
  cbn [channelRef setIsDrawing setDrawingHistory].
  eexists; split; [|split; [exact Hc|split; [|split]]].
  - destruct (channelRef s); reflexivity.
  - reflexivity.
  - intros H; rewrite H in Hlen; discriminate.
  - intros channel Hch; rewrite Hch; reflexivity.
Qed.

Lemma Forall_removelast {A : Type} (P : A -> Prop) (l : list A) :
  Forall P l -> Forall P (removelast l).
Proof.
  induction 1 as [|a l Ha Hl IH]; [constructor|]; simpl.
  destruct l; [constructor|]; now constructor.
Qed.

(** X10.  Every stroke in the history has at least one point: the
    invariant holds after mounting and is kept by every event, whatever
    arrives from the channel. *)
Theorem history_strokes_have_points (user : AuthUser.t)
  (canvas : option Canvas) (evs : list Event) :
  Forall (fun d => DrawingData.points d <> [])
    (drawingHistory (run user evs (mount user canvas))).
Proof.
  assert (Hrun : forall evs s,
            Forall (fun d => DrawingData.points d <> []) (drawingHistory s) ->
            Forall (fun d => DrawingData.points d <> [])
              (drawingHistory (run user evs s))).
  { clear evs; induction evs as [|ev evs IH]; intros s H; [exact H|].
    rewrite run_cons; apply IH.
    destruct (step_drawingHistory user ev s)
      as [->|[->|[->|(d & -> & _ & Hp & Hne & _)]]].
    - exact H.
    - constructor.
    - now apply Forall_removelast.
    - apply Forall_app; split; [exact H|].
      constructor; [now rewrite Hp | constructor]. }
  apply Hrun.
  unfold mount, canvasEffect, connectEffect, getContext, putContext.
  open_handler; constructor.
Qed.

Lemma run_not_subscribed (user : AuthUser.t) (evs : list Event) (s : State) :
  isConnected s = false ->
  existsb isSubscribed evs = false ->
  isConnected (run user evs s) = false
  /\ publishedBy (run user evs s) = publishedBy s
  /\ (drawingHistory s = [] -> drawingHistory (run user evs s) = []).
Proof.
  revert s; induction evs as [|ev evs IH]; intros s Hc Hs.
  - repeat split; auto.
  - simpl in Hs; apply orb_false_elim in Hs as [Hev Hevs].
    assert (Hc' : isConnected (step user ev s) = false)
      by (rewrite step_isConnected, Hc, Hev; reflexivity).
    rewrite run_cons.
    destruct (IH (step user ev s) Hc' Hevs) as (H1 & H2 & H3).
    split; [exact H1|]; split.
    + rewrite H2.
      destruct (step_published user ev s) as (l & -> & _ & _ & Hl).
      rewrite (Hl Hc); apply app_nil_r.
    + intros Hh; apply H3.
      destruct (step_drawingHistory user ev s)
        as [->|[->|[->|(d & _ & Hcon & _)]]].
      * exact Hh.
      * reflexivity.
      * now rewrite Hh.
      * rewrite Hcon in Hc; discriminate.
Qed.

(** X11.  Until its [subscribe] is fulfilled a replica is inert on its own
    side: whatever else happens (gestures, clicks, messages, presence, a
    rejected [subscribe]), it stays disconnected, publishes nothing, and a
    history that is empty stays empty. *)
Theorem inert_until_subscribed (user : AuthUser.t) (evs : list Event)
  (s : State) :
  isConnected s = false ->
  drawingHistory s = [] ->
  existsb isSubscribed evs = false ->
  isConnected (run user evs s) = false
  /\ publishedBy (run user evs s) = publishedBy s
  /\ drawingHistory (run user evs s) = [].
Proof.
  intros Hc Hh Hs.
  destruct (run_not_subscribed user evs s Hc Hs) as (H1 & H2 & H3).
  repeat split; auto.
Qed.

Lemma mount_fields (user : AuthUser.t) (canvas : option Canvas) :
  isConnected (mount user canvas) = false
  /\ isMounted (mount user canvas) = true
  /\ drawingHistory (mount user canvas) = []
  /\ isDrawing (mount user canvas) = false.
Proof.
  unfold mount, canvasEffect, connectEffect, getContext, putContext.
  open_handler; repeat split; reflexivity.
Qed.

(** A mounted replica that is not connected has an empty history. *)
Lemma disconnected_history_empty (user : AuthUser.t)
  (canvas : option Canvas) (evs : list Event) :
  isConnected (run user evs (mount user canvas)) = false ->
  drawingHistory (run user evs (mount user canvas)) = [].
Proof.
  destruct (mount_fields user canvas) as (Hc & Hm & Hh & _).
  rewrite run_isConnected, Hc, Hm, andb_true_r; cbn [orb]; intros Hs.
  now apply (run_not_subscribed user evs _ Hc Hs).
Qed.

(** ** Buttons *)

(** X12.  In every state a mounted replica can reach, a button shown
    disabled has a handler that would do nothing: with Undo disabled
    [handleUndo] returns the state unchanged (while not connected the
    history is empty, although [handleUndo] itself does not test the
    connection), and with Clear All disabled so does [handleClear]. *)
Theorem disabled_buttons_do_nothing (user : AuthUser.t)
  (canvas : option Canvas) (evs : list Event) :
  (undoDisabled (run user evs (mount user canvas)) = true ->
   handleUndo (run user evs (mount user canvas))
   = Normal (run user evs (mount user canvas)))
  /\ (clearDisabled (run user evs (mount user canvas)) = true ->
      handleClear user (run user evs (mount user canvas))
      = run user evs (mount user canvas)).
Proof.
  split.
  - unfold undoDisabled; intros H.
    assert (Hh : (length (drawingHistory (run user evs (mount user canvas)))
                  =? 0)%nat = true).
    { apply orb_true_iff in H as [H|H]; [|exact H].
      apply negb_true_iff in H.
      now rewrite (disconnected_history_empty user canvas evs H). }
    unfold handleUndo; now rewrite Hh.
  - unfold clearDisabled; intros H; apply negb_true_iff in H.
    now apply handleClear_not_connected.
Qed.

(** ** Strokes recorded and strokes published *)

Lemma step_channel (user : AuthUser.t) (ev : Event) (s : State)
  (channel : Channel) :
  channelRef s = Some channel ->
  exists channel',
    channelRef (step user ev s) = Some channel'
    /\ channelName channel' = channelName channel
    /\ subscription channel' = subscription channel.
Proof.
  intros Hch.
  destruct ev as [r|message|users|e|e|now_id now_ts|r| |r| |t|c|n];
    cbn [step];
    try (exists channel; split; [|split; reflexivity];
         rewrite <- Hch; open_step; reflexivity).
  - unfold stopDrawing.
    destruct (_ || _); [now exists channel|].
    cbn [channelRef setIsDrawing setDrawingHistory]; rewrite Hch.
    eexists; split; [reflexivity|]; split; reflexivity.
  - unfold handleClear.
    destruct (negb _); [now exists channel|].
    rewrite clearCanvas_channelRef, Hch.
    eexists; split; [reflexivity|]; split; reflexivity.
Qed.

(** X13.  In every state a mounted replica can reach, the channel is there
    (the [whiteboard-room] channel, still holding the presence entry it was
    subscribed with), and every stroke in the history has been published
    on it, as a draw message under the replica's own id. *)
Theorem recorded_strokes_were_published (user : AuthUser.t)
  (canvas : option Canvas) (evs : list Event) :
  (exists channel,
     channelRef (run user evs (mount user canvas)) = Some channel
     /\ channelName channel = "whiteboard-room"
     /\ exists entry,
          subscription channel = Some entry
          /\ User.userId entry = AuthUser.id user)
  /\ Forall
       (fun d =>
          In (Message.mk "draw" (AuthUser.id user) (DrawPayload d))
            (publishedBy (run user evs (mount user canvas))))
       (drawingHistory (run user evs (mount user canvas))).
Proof.
  set (sent := fun s d =>
         In (Message.mk "draw" (AuthUser.id user) (DrawPayload d))
           (publishedBy s)).
  assert (Hrun : forall evs s channel,
            channelRef s = Some channel ->
            Forall (sent s) (drawingHistory s) ->
            (exists channel',
               channelRef (run user evs s) = Some channel'
               /\ channelName channel' = channelName channel
               /\ subscription channel' = subscription channel)
            /\ Forall (sent (run user evs s)) (drawingHistory (run user evs s))).
  { clear evs; induction evs as [|ev evs IH]; intros s channel Hch Hall.
    - split; [now exists channel | exact Hall].
    - rewrite run_cons.
      destruct (step_channel user ev s channel Hch) as (ch1 & Hch1 & Hn1 & Hs1).
      assert (Hall1 : Forall (sent (step user ev s))
                        (drawingHistory (step user ev s))).
      { destruct (step_published user ev s) as (l & Hpub & _).
        assert (Hkeep : Forall (sent (step user ev s)) (drawingHistory s)).
        { eapply Forall_impl; [|exact Hall].
          intros d Hd; unfold sent; rewrite Hpub; apply in_or_app; now left. }
        destruct (step_drawingHistory user ev s)
          as [->|[->|[->|(d & -> & _ & _ & _ & Hd)]]].
        - exact Hkeep.
        - constructor.
        - now apply Forall_removelast.
        - apply Forall_app; split; [exact Hkeep|].
          constructor; [|constructor].
          unfold sent; rewrite (Hd channel Hch); apply in_or_app; right.
          now left. }
      destruct (IH (step user ev s) ch1 Hch1 Hall1) as ((ch2 & H2 & Hn2 & Hs2) & F).
      split; [|exact F].
      exists ch2; split; [exact H2|]; split; congruence. }
  assert (Hm : exists channel,
            channelRef (mount user canvas) = Some channel
            /\ channelName channel = "whiteboard-room"
            /\ (exists entry, subscription channel = Some entry
                              /\ User.userId entry = AuthUser.id user)
            /\ drawingHistory (mount user canvas) = []).
  { unfold mount, canvasEffect, connectEffect, getContext, putContext.
    open_handler; eexists; (split; [reflexivity|]); (split; [reflexivity|]);
      (split; [|reflexivity]); eexists; split; reflexivity. }
  destruct Hm as (channel & Hch & Hname & Hentry & Hh).
  destruct (Hrun evs (mount user canvas) channel Hch) as ((ch' & H' & Hn' & Hs') & F).
  { rewrite Hh; constructor. }
  split; [|exact F].
  exists ch'; split; [exact H'|]; split; [congruence|].
  now rewrite Hs'.
Qed.

(** ** Round caps and joins *)

Lemma roundContext_put (ctx ctx' : Context2D) (s : State) :
  getContext s = Some ctx ->
  lineCap ctx' = cap_round ->
  lineJoin ctx' = join_round ->
  allRound (bitmap ctx') ->
  roundContext (putContext ctx' s).
Proof.
  intros Hctx Hcap Hjoin Hbm; unfold roundContext.
  now rewrite (getContext_putContext ctx ctx' s Hctx).
Qed.

Lemma roundContext_same (s s' : State) :
  getContext s' = getContext s -> roundContext s -> roundContext s'.
Proof. unfold roundContext; now intros ->. Qed.

Lemma drawRemoteStroke_round (data : DrawingData.t) (s : State) :
  roundContext s -> roundContext (stateOf (drawRemoteStroke data s)).
Proof.
  intros H.
  destruct (getContext s) as [ctx|] eqn:Hctx;
    [|unfold drawRemoteStroke; now rewrite Hctx].
  destruct (DrawingData.points data) as [|p0 rest] eqn:Hpts;
    [unfold drawRemoteStroke; now rewrite Hctx, Hpts|].
  destruct (drawRemoteStroke_paints data s ctx p0 rest Hctx Hpts)
    as (ctx' & -> & _ & Hbm & Hbr).
  unfold roundContext in H; rewrite Hctx in H; destruct H as (Hcap & Hjoin & Hall).
  assert (Hc' : lineCap ctx' = cap_round /\ lineJoin ctx' = join_round).
  { change (brush_cap (brushOf ctx') = cap_round
            /\ brush_join (brushOf ctx') = join_round).
    rewrite Hbr; destruct (DrawingData.type data); now split. }
  destruct Hc' as (Hcap' & Hjoin').
  apply (roundContext_put ctx); auto.
  rewrite Hbm; cbn; auto.
Qed.

Lemma clearCanvas_round (s : State) :
  roundContext s -> roundContext (clearCanvas s).
Proof.
  intros H; unfold clearCanvas.
  destruct (getContext s) as [ctx|] eqn:Hctx; [|exact H].
  unfold roundContext in *; rewrite Hctx in H; destruct H as (Hcap & Hjoin & _).
  change (getContext (setDrawingHistory [] ?x)) with (getContext x).
  rewrite (getContext_putContext ctx _ s Hctx).
  unfold fillRectCanvas; destruct (globalCompositeOperation _); cbn; auto.
Qed.

Lemma draw_round (e : PointerEvent) (s : State) :
  roundContext s -> roundContext (draw e s).
Proof.
  intros H.
  destruct (isDrawing s) eqn:Hd; [|unfold draw; now rewrite Hd].
  destruct (isConnected s) eqn:Hc;
    [|unfold draw; rewrite Hd, Hc; exact H].
  destruct (getContext s) as [ctx|] eqn:Hctx.
  - destruct (draw_paints e s ctx Hd Hc Hctx) as (ctx' & -> & _ & Hbm & Hbr).
    unfold roundContext in H; rewrite Hctx in H;
      destruct H as (Hcap & Hjoin & Hall).
    assert (Hc' : lineCap ctx' = cap_round /\ lineJoin ctx' = join_round).
    { change (brush_cap (brushOf ctx') = cap_round
              /\ brush_join (brushOf ctx') = join_round).
      rewrite Hbr; destruct (tool s); now split. }
    destruct Hc' as (Hcap' & Hjoin').
    apply (roundContext_put ctx); [exact Hctx|auto..].
    rewrite Hbm; cbn; auto.
  - unfold draw; rewrite Hd, Hc; cbn [negb orb].
    replace (getContext (setCurrentStroke _ s)) with (@None Context2D)
      by (rewrite <- Hctx; reflexivity).
    apply (roundContext_same s); [reflexivity | exact H].
Qed.

Lemma startDrawing_round (e : PointerEvent) (s : State) :
  roundContext s -> roundContext (startDrawing e s).
Proof.
  intros H; unfold startDrawing.
  destruct (negb _); [exact H|].
  destruct (getContext s) as [ctx|] eqn:Hctx.
  - replace (getContext (setCurrentStroke _ (setIsDrawing true s)))
      with (Some ctx) by (rewrite <- Hctx; reflexivity).
    unfold roundContext in H; rewrite Hctx in H;
      destruct H as (Hcap & Hjoin & Hall).
    apply (roundContext_put ctx); auto.
  - replace (getContext (setCurrentStroke _ (setIsDrawing true s)))
      with (@None Context2D) by (rewrite <- Hctx; reflexivity).
    apply (roundContext_same s); [reflexivity | exact H].
Qed.

Lemma step_round (user : AuthUser.t) (ev : Event) (s : State) :
  roundContext s -> roundContext (step user ev s).
Proof.
  intros H.
  destruct ev as [r|message|users|e|e|now_id now_ts|r| |r| |t|c|n];
    cbn [step].
  - apply (roundContext_same s); [|exact H].
    unfold subscribeSettled; destruct (negb _), r; reflexivity.
  - unfold onMessage.
    destruct (_ && _).
    + destruct (Message.data message) as [data|];
        [now apply drawRemoteStroke_round|].
      destruct (getContext s); exact H.
    + destruct (_ =? _); [now apply clearCanvas_round | exact H].
  - exact H.
  - now apply startDrawing_round.
  - now apply draw_round.
  - apply (roundContext_same s); [|exact H].
    unfold stopDrawing; destruct (_ || _); [reflexivity|].
    cbn [channelRef setIsDrawing setDrawingHistory].
    destruct (channelRef s); reflexivity.
  - destruct r; exact H.
  - unfold handleClear; destruct (negb _); [exact H|].
    apply (roundContext_same (clearCanvas s));
      [|now apply clearCanvas_round].
    destruct (channelRef _); reflexivity.
  - destruct r; exact H.
  - unfold handleUndo; destruct (_ =? _)%nat; [exact H|].
    rewrite redrawCanvas_eq; cbn [stateOf].
    apply clearCanvas_round.
    apply (roundContext_same s); [reflexivity | exact H].
  - exact H.
  - exact H.
  - exact H.
Qed.

(** X14.  From mounting on, whatever events follow, the context keeps
    [lineCap] and [lineJoin] at [round], and every stroke on the bitmap,
    drawn locally or replayed from the channel, with the pen or the eraser,
    was painted with round caps and joins. *)
Theorem strokes_are_round (user : AuthUser.t) (canvas : option Canvas)
  (evs : list Event) :
  roundContext (run user evs (mount user canvas)).
Proof.
  assert (Hrun : forall evs s, roundContext s -> roundContext (run user evs s)).
  { clear evs; induction evs as [|ev evs IH]; intros s H; [exact H|].
    rewrite run_cons; apply IH; now apply step_round. }
  apply Hrun.
  unfold mount, canvasEffect.
  destruct (getContext (connectEffect user (initialState canvas)))
    as [ctx|] eqn:Hctx.
  - apply (roundContext_put ctx); [exact Hctx|reflexivity..|cbn; exact I].
  - unfold roundContext; now rewrite Hctx.
Qed.

(** ** Events in the middle of a gesture *)

Lemma putContext_fields (c : Context2D) (s : State) :
  isDrawing (putContext c s) = isDrawing s
  /\ isConnected (putContext c s) = isConnected s
  /\ tool (putContext c s) = tool s
  /\ color (putContext c s) = color s
  /\ size (putContext c s) = size s
  /\ currentStroke (putContext c s) = currentStroke s
  /\ drawingHistory (putContext c s) = drawingHistory s
  /\ channelRef (putContext c s) = channelRef s.
Proof. unfold putContext; destruct (canvasRef s); repeat split; reflexivity. Qed.

(** X15.  The local gesture and the replay of a remote stroke share the
    context's one current path.  When a remote stroke arrives while the
    pointer is down, its [beginPath] discards the local path; the next
    [draw] then strokes the remote stroke's whole path a second time, with
    the local brush (the pen's colour and size, or the eraser; a width or
    a colour the context does not accept leaves the remote stroke's),
    continued by a line from the remote stroke's last point to the new
    sample.  The sample still joins the stroke in progress. *)
Theorem remote_stroke_takes_over_path (data : DrawingData.t) (s : State)
  (ctx : Context2D) (p0 : Point) (rest : list Point) (e : PointerEvent) :
  isDrawing s = true ->
  isConnected s = true ->
  getContext s = Some ctx ->
  DrawingData.points data = p0 :: rest ->
  exists remoteBrush localBrush,
    surface (draw e (stateOf (drawRemoteStroke data s)))
    = Some (Stroked
              (Stroked (bitmap ctx) remoteBrush
                 (MoveTo p0 :: map LineTo (p0 :: rest)))
              localBrush
              ((MoveTo p0 :: map LineTo (p0 :: rest))
                 ++ [LineTo (getCanvasCoordinates e s)]))
    /\ brush_op localBrush
       = match tool s with pen => source_over | eraser => destination_out end
    /\ brush_width localBrush
       = (if validLineWidth
               match tool s with pen => size s | eraser => (size s * 2)%float end
          then match tool s with pen => size s | eraser => (size s * 2)%float end
          else brush_width remoteBrush)
    /\ (tool s = pen ->
        brush_style localBrush
        = match parseColor (color s) with
          | Some col => col
          | None => brush_style remoteBrush
          end)
    /\ currentStroke (draw e (stateOf (drawRemoteStroke data s)))
       = currentStroke s ++ [getCanvasCoordinates e s].
Proof.
  intros Hd Hc Hctx Hpts.
  destruct (drawRemoteStroke_paints data s ctx p0 rest Hctx Hpts)
    as (ctx1 & -> & Hpath1 & Hbm1 & _); cbn [stateOf].
  destruct (putContext_fields ctx1 s)
    as (Hd1 & Hc1 & Ht1 & Hcol1 & Hsz1 & Hcs1 & _).
  assert (Hctx1 : getContext (putContext ctx1 s) = Some ctx1)
    by exact (getContext_putContext ctx ctx1 s Hctx).
  assert (Hpt : getCanvasCoordinates e (putContext ctx1 s)
                = getCanvasCoordinates e s)
    by (apply getCanvasCoordinates_rect, canvasRect_putContext).
  destruct (draw_paints e (putContext ctx1 s) ctx1)
    as (ctx2 & -> & Hpath2 & Hbm2 & Hbr2); [congruence..|exact Hctx1|].
  rewrite Hpt, Ht1, Hcol1, Hsz1, Hcs1 in *.
  exists (brushOf ctx1), (brushOf ctx2).
  split; [|split; [|split; [|split]]].
  - erewrite surface_putContext by (exact Hctx1).
    now rewrite Hbm2, Hpath2, Hbm1, Hpath1.
  - rewrite Hbr2; now destruct (tool s).
  - rewrite Hbr2; now destruct (tool s).
  - intros Hpen; rewrite Hbr2, Hpen; reflexivity.
  - destruct (putContext_fields ctx2
                (setCurrentStroke
                   (currentStroke s ++ [getCanvasCoordinates e s])
                   (putContext ctx1 s)))
      as (_ & _ & _ & _ & _ & -> & _); reflexivity.
Qed.

(** X16.  A clear that arrives while the pointer is down empties the
    history and fills the canvas, but leaves the current path and the
    stroke in progress alone: the next [draw] strokes the whole path of
    the gesture again over the cleared bitmap, and the release commits
    every point sampled, those from before the clear included. *)
Theorem clear_spares_stroke_in_progress (user : AuthUser.t)
  (message : Message.t) (s : State) (ctx : Context2D) (e : PointerEvent)
  (now_id now_ts : Z) :
  Message.type message = "clear" ->
  isDrawing s = true ->
  isConnected s = true ->
  getContext s = Some ctx ->
  exists brush d,
    onMessage user message s = Normal (clearCanvas s)
    /\ drawingHistory (clearCanvas s) = []
    /\ surface (draw e (clearCanvas s))
       = Some (Stroked
                 (bitmap (fillRectCanvas (set_fillStyle "#ffffff" ctx)))
                 brush
                 (path ctx ++ [LineTo (getCanvasCoordinates e s)]))
    /\ drawingHistory (stopDrawing user now_id now_ts (draw e (clearCanvas s)))
       = [d]
    /\ DrawingData.points d
       = currentStroke s ++ [getCanvasCoordinates e s].
Proof.
  intros Ht Hd Hc Hctx.
  assert (Hmsg : onMessage user message s = Normal (clearCanvas s)).
  { unfold onMessage; rewrite Ht; reflexivity. }
  set (ctx1 := fillRectCanvas (set_fillStyle "#ffffff" ctx)).
  assert (Hs1 : clearCanvas s = setDrawingHistory [] (putContext ctx1 s))
    by (unfold clearCanvas; now rewrite Hctx).
  destruct (putContext_fields ctx1 s)
    as (Hd1 & Hc1 & Ht1 & Hcol1 & Hsz1 & Hcs1 & _ & Hch1).
  assert (Hctx1 : getContext (clearCanvas s) = Some ctx1).
  { rewrite Hs1.
    change (getContext (setDrawingHistory [] ?x)) with (getContext x).
    exact (getContext_putContext ctx ctx1 s Hctx). }
  assert (Hpt : getCanvasCoordinates e (clearCanvas s)
                = getCanvasCoordinates e s).
  { apply getCanvasCoordinates_rect; rewrite Hs1.
    change (canvasRef (setDrawingHistory [] ?x)) with (canvasRef x).
    apply canvasRect_putContext. }
  assert (Hg : inGesture (clearCanvas s) (clearCanvas s) (currentStroke s)).
  { unfold inGesture; rewrite Hs1; cbn; rewrite Hd1, Hc1, Hcs1; auto 10. }
  pose proof (draw_inGesture e _ _ _ Hg) as Hg2; rewrite Hpt in Hg2.
  destruct (draw_paints e (clearCanvas s) ctx1)
    as (ctx2 & Hdraw & Hpath2 & Hbm2 & _);
    [rewrite Hs1; cbn; congruence | rewrite Hs1; cbn; congruence
    | exact Hctx1|].
  assert (Hne : exists q qs,
            currentStroke s ++ [getCanvasCoordinates e s] = q :: qs).
  { destruct (currentStroke s); simpl; eauto. }
  destruct Hne as (q & qs & Hq); rewrite Hq in Hg2.
  destruct (stopDrawing_commits user now_id now_ts _ _ q qs Hg2)
    as (Hh & _).
  exists (brushOf ctx2); eexists; split; [exact Hmsg|].
  split; [rewrite Hs1; reflexivity|]; split; [|split].
  - rewrite Hdraw, Hpt.
    erewrite surface_putContext
      by (change (getContext (setCurrentStroke ?v ?x)) with (getContext x);
          exact Hctx1).
    rewrite Hbm2, Hpath2, Hpt.
    replace (path ctx1) with (path ctx); [reflexivity|].
    subst ctx1; unfold fillRectCanvas.
    destruct (globalCompositeOperation _); reflexivity.
  - rewrite Hh, Hs1; reflexivity.
  - symmetry; exact Hq.
Qed.

(** X17.  A stroke records the tool, colour and size selected when the
    pointer is released, not those it was drawn with: after a change in
    the middle of a gesture the local bitmap keeps the segments as drawn
    (here with the pen, in the old colour and at the old size, as far as
    the context accepted them), while the stroke in the history, which is
    the one published, carries the new settings. *)
Theorem stroke_records_settings_at_release (user : AuthUser.t)
  (e : PointerEvent) (t' : Tool) (c' : string) (n' : number)
  (now_id now_ts : Z) (s : State) (ctx : Context2D) :
  isDrawing s = true ->
  isConnected s = true ->
  getContext s = Some ctx ->
  tool s = pen ->
  exists d,
    drawingHistory
      (run user [PointerMove e; ToolPicked t'; ColorPicked c'; SizePicked n';
                 PointerUp now_id now_ts] s)
    = drawingHistory s ++ [d]
    /\ DrawingData.type d
       = match t' with pen => draw_type | eraser => erase_type end
    /\ DrawingData.color d = c'
    /\ DrawingData.size d = n'
    /\ DrawingData.points d = currentStroke s ++ [getCanvasCoordinates e s]
    /\ surface
         (run user [PointerMove e; ToolPicked t'; ColorPicked c';
                    SizePicked n'; PointerUp now_id now_ts] s)
       = Some (Stroked (bitmap ctx)
                 (mkBrush source_over
                    (match parseColor (color s) with
                     | Some col => col
                     | None => strokeStyle ctx
                     end)
                    (if validLineWidth (size s) then size s
                     else lineWidth ctx)
                    (lineCap ctx) (lineJoin ctx))
                 (path ctx ++ [LineTo (getCanvasCoordinates e s)])).
Proof.
  intros Hd Hc Hctx Hpen.
  destruct (draw_paints e s ctx Hd Hc Hctx) as (ctx1 & Hdraw & Hpath & Hbm & Hbr).
  rewrite Hpen in Hbr.
  cbn [run fold_left step]; rewrite Hdraw.
  set (s1 := putContext ctx1 _).
  assert (Hf : isDrawing s1 = true /\ isConnected s1 = true
               /\ currentStroke s1
                  = currentStroke s ++ [getCanvasCoordinates e s]
               /\ drawingHistory s1 = drawingHistory s
               /\ getContext s1 = Some ctx1).
  { subst s1.
    destruct (putContext_fields ctx1
                (setCurrentStroke
                   (currentStroke s ++ [getCanvasCoordinates e s]) s))
      as (-> & -> & _ & _ & _ & -> & -> & _).
    repeat split; auto.
    apply (getContext_putContext ctx); rewrite <- Hctx; reflexivity. }
  destruct Hf as (Hd1 & Hc1 & Hcs1 & Hh1 & Hctx1).
  unfold stopDrawing.
  cbn [isDrawing isConnected currentStroke tool color size drawingHistory
    channelRef setTool setColor setSize setIsDrawing setDrawingHistory].
  rewrite Hd1, Hc1, Hcs1, Hh1.
  destruct (currentStroke s ++ [getCanvasCoordinates e s]) as [|q qs] eqn:Hq;
    [destruct (currentStroke s); discriminate|].
  cbn [negb orb length Nat.eqb].
  eexists; split; [destruct (channelRef s1); reflexivity|].
  cbn [DrawingData.type DrawingData.color DrawingData.size DrawingData.points].
  repeat split.
  unfold surface.
  replace (getContext _) with (Some ctx1)
    by (rewrite <- Hctx1; destruct (channelRef s1); reflexivity).
  now rewrite Hbm, Hbr, Hpath.
Qed.

(** ** A clear whose publish fails *)

(** X19.  [handleClear] clears the canvas and the history before it
    publishes.  When the publish promise settles, either way, the history
    is still empty, the canvas is as cleared, and no publish call was
    added; the "Canvas cleared" toast is shown only when the publish was
    fulfilled. *)
Theorem failed_clear_stays_cleared (user : AuthUser.t) (r : Settled)
  (s : State) (ctx : Context2D) (channel : Channel) :
  isConnected s = true ->
  getContext s = Some ctx ->
  channelRef s = Some channel ->
  drawingHistory (stateOf (handleClearSettled r (handleClear user s))) = []
  /\ canvasRef (stateOf (handleClearSettled r (handleClear user s)))
     = canvasRef (clearCanvas s)
  /\ publishedBy (stateOf (handleClearSettled r (handleClear user s)))
     = published channel
         ++ [Message.mk "clear" (AuthUser.id user) EmptyPayload]
  /\ toasts (stateOf (handleClearSettled r (handleClear user s)))
     = toasts s
         ++ match r with
            | Fulfilled => [toast_success "Canvas cleared"]
            | Rejected => []
            end.
Proof.
  intros Hc Hctx Hch.
  assert (Hs : handleClear user s
               = setChannelRef
                   (Some (publish "clear" EmptyPayload (AuthUser.id user)
                            channel)) (clearCanvas s)).
  { unfold handleClear; rewrite Hc; cbn [negb].
    now rewrite clearCanvas_channelRef, Hch. }
  rewrite Hs.
  assert (Hh : drawingHistory (clearCanvas s) = [])
    by (unfold clearCanvas; now rewrite Hctx).
  assert (Ht : toasts (clearCanvas s) = toasts s).
  { unfold clearCanvas, putContext; rewrite Hctx.
    unfold getContext in Hctx.
    destruct (canvasRef s); [reflexivity | discriminate]. }
  destruct r; cbn; rewrite ?Hh, ?Ht, ?app_nil_r; repeat split; reflexivity.
Qed.

(** ** Replicas that receive the same messages *)

Lemma onMessage_canvas (u1 u2 : AuthUser.t) (message : Message.t)
  (s1 s2 : State) :
  canvasRef s1 = canvasRef s2 ->
  (Message.userId message =? AuthUser.id u1)
  = (Message.userId message =? AuthUser.id u2) ->
  canvasRef (stateOf (onMessage u1 message s1))
  = canvasRef (stateOf (onMessage u2 message s2)).
Proof.
  intros Hcv Hid; unfold onMessage; rewrite Hid.
  unfold drawRemoteStroke, clearCanvas, getContext, putContext.
  destruct s1, s2; cbn [canvasRef] in *; subst.
  repeat match goal with
    | |- context [match ?x with _ => _ end] => destruct x
    end;
    reflexivity.
Qed.

(** X20.  What a replica's canvas shows after a sequence of channel
    messages depends only on the canvas it had and on the messages: two
    replicas that start from the same canvas and receive the same
    messages, none of them sent by either, end with the same canvas,
    whatever their tools, colours, histories and strokes in progress
    are. *)
Theorem same_messages_same_canvas (u1 u2 : AuthUser.t)
  (messages : list Message.t) (s1 s2 : State) :
  canvasRef s1 = canvasRef s2 ->
  Forall (fun m => Message.userId m <> AuthUser.id u1
                   /\ Message.userId m <> AuthUser.id u2) messages ->
  canvasRef (run u1 (map MessageReceived messages) s1)
  = canvasRef (run u2 (map MessageReceived messages) s2)
  /\ surface (run u1 (map MessageReceived messages) s1)
     = surface (run u2 (map MessageReceived messages) s2).
Proof.
  intros Hcv Hall.
  assert (H : canvasRef (run u1 (map MessageReceived messages) s1)
              = canvasRef (run u2 (map MessageReceived messages) s2)).
  { revert s1 s2 Hcv; induction Hall as [|m ms [H1 H2] _ IH];
      intros s1 s2 Hcv; [exact Hcv|].
    cbn [map]; rewrite !run_cons; cbn [step].
    apply IH, onMessage_canvas; [exact Hcv|].
    apply String.eqb_neq in H1, H2; now rewrite H1, H2. }
  split; [exact H|]; unfold surface, getContext; now rewrite H.
Qed.

(** ** The App component *)

Lemma app_unmounted_frozen (evs : list App.Event) (s : App.State) :
  App.isMounted s = false -> App.run evs s = s.
Proof.
  revert s; induction evs as [|ev evs IH]; intros s H; [reflexivity|].
  change (App.run (ev :: evs) s) with (App.run evs (App.step ev s)).
  assert (Hs : App.step ev s = s).
  { destruct ev; cbn; rewrite ?H; try reflexivity.
    destruct s; cbn in *; now subst. }
  rewrite Hs; now apply IH.
Qed.

Lemma app_user_latest (evs : list App.Event) (s : App.State) :
  App.isMounted s = true ->
  App.user (App.run evs s)
  = match App.lastAuth (App.whileMounted evs) with
    | Some u => u
    | None => App.user s
    end.
Proof.
  revert s; induction evs as [|ev evs IH]; intros s H; [reflexivity|].
  change (App.run (ev :: evs) s) with (App.run evs (App.step ev s)).
  destruct ev as [u| |st| ]; cbn [App.whileMounted App.lastAuth App.step];
    rewrite ?H.
  - rewrite IH by exact H.
    destruct (App.lastAuth (App.whileMounted evs)); reflexivity.
  - rewrite IH by exact H.
    destruct (App.lastAuth (App.whileMounted evs)); reflexivity.
  - rewrite IH by exact H.
    destruct (App.lastAuth (App.whileMounted evs)); reflexivity.
  - now rewrite app_unmounted_frozen.
Qed.

(** X18.  The App shows the whiteboard for the user that the last auth
    event delivered ([blink.auth.me()] resolving, or an auth state change),
    and the loading screen when there was none or it delivered no user; a
    failed [blink.auth.me()] changes nothing, and whatever arrives after
    the cleanup is ignored. *)
Theorem app_shows_latest_user (evs : list App.Event) :
  App.render (App.run evs App.initialState)
  = match App.lastAuth (App.whileMounted evs) with
    | Some (Some u) => App.WhiteboardView u
    | _ => App.Loading
    end.
Proof.
  unfold App.render; rewrite app_user_latest by reflexivity.
  destruct (App.lastAuth (App.whileMounted evs)) as [[u|]|]; reflexivity.
Qed.

End FurtherProperties.

(** * Further sessions *)

Section FurtherSessions.

#[local] Existing Instance hexBrowser.

(** Alice's address gives her the name "alice". *)
Lemma display_name_is_local_part_witness :
  "alice" <> "" /\ containsAt "alice" = false /\ displayNameOf alice = "alice".
Proof.
  assert (Hne : "alice" <> "") by discriminate.
  exact (conj Hne (conj eq_refl
           (display_name_is_local_part "alice" "alice" "example.org" None
              Hne eq_refl))).
Defined.

(** A draw message under Bob's own id comes back to him from the channel,
    here one that carries no stroke. *)
Lemma onMessage_ignores_witness :
  onMessage bob (Message.mk "draw" "bob" EmptyPayload) bobConnected
  = Normal bobConnected.
Proof.
  exact (proj1 (onMessage_ignores bob (Message.mk "draw" "bob" EmptyPayload)
                  bobConnected) (or_introl (conj eq_refl eq_refl))).
Defined.

(** Alice lets go right after the settlement emptied her stroke in
    progress: nothing is committed, she is still drawing, and the next
    move is sampled. *)
Lemma release_ends_gesture_unless_emptied_witness :
  isDrawing aliceEmptied = true
  /\ currentStroke aliceEmptied = []
  /\ stopDrawing alice 2000 2000 aliceEmptied = aliceEmptied
  /\ currentStroke
       (draw (mouseAt 38%float 36%float)
          (stopDrawing alice 2000 2000 aliceEmptied))
     = [mkPoint 30%float 20%float].
Proof.
  destruct (proj2 (proj2 (release_ends_gesture_unless_emptied alice 2000 2000
                            3000 3000 (mouseAt 38%float 36%float)
                            aliceEmptied)) eq_refl eq_refl eq_refl)
    as (Hs & _ & Hcs).
  exact (conj eq_refl (conj eq_refl (conj Hs Hcs))).
Defined.

(** Alice's [subscribe] is rejected; she drags, clicks Undo and Clear All,
    and a snapshot arrives. *)
Lemma inert_until_subscribed_witness :
  isConnected alicePending = false
  /\ publishedBy
       (run alice
          (SubscribeSettled Rejected :: drag
             ++ [UndoClicked; ClearClicked;
                 PresenceReceived [aliceEntry; bobEntry]])
          alicePending)
     = publishedBy alicePending
  /\ drawingHistory
       (run alice
          (SubscribeSettled Rejected :: drag
             ++ [UndoClicked; ClearClicked;
                 PresenceReceived [aliceEntry; bobEntry]])
          alicePending)
     = [].
Proof.
  pose proof (inert_until_subscribed alice
                (SubscribeSettled Rejected :: drag
                   ++ [UndoClicked; ClearClicked;
                       PresenceReceived [aliceEntry; bobEntry]])
                alicePending eq_refl eq_refl eq_refl) as (_ & Hp & Hh).
  exact (conj eq_refl (conj Hp Hh)).
Defined.

(** Bob's erase stroke arrives while Alice is dragging with the pen. *)
Lemma remote_stroke_takes_over_path_witness :
  isDrawing aliceDragging = true
  /\ currentStroke
       (draw (mouseAt 28%float 36%float)
          (stateOf (drawRemoteStroke eraseStroke aliceDragging)))
     = [mkPoint 0%float 0%float; mkPoint 10%float 10%float;
        mkPoint 20%float 20%float].
Proof.
  destruct (remote_stroke_takes_over_path eraseStroke aliceDragging _ _ _
              (mouseAt 28%float 36%float) eq_refl eq_refl eq_refl eq_refl)
    as (rb & lb & _ & _ & _ & _ & Hcs).
  exact (conj eq_refl Hcs).
Defined.

(** Bob's clear arrives while Alice is dragging. *)
Lemma clear_spares_stroke_in_progress_witness :
  isDrawing aliceDragging = true
  /\ exists d,
       drawingHistory
         (stopDrawing alice 1000 1000
            (draw (mouseAt 28%float 36%float) (clearCanvas aliceDragging)))
       = [d]
       /\ DrawingData.points d
          = [mkPoint 0%float 0%float; mkPoint 10%float 10%float;
             mkPoint 20%float 20%float].
Proof.
  destruct (clear_spares_stroke_in_progress alice
              (Message.mk "clear" "bob" EmptyPayload) aliceDragging _
              (mouseAt 28%float 36%float) 1000 1000
              eq_refl eq_refl eq_refl eq_refl)
    as (brush & d & _ & _ & _ & Hh & Hp).
  exact (conj eq_refl (ex_intro _ d (conj Hh Hp))).
Defined.

(** Alice switches to a green eraser of size 9 before she lets go. *)
Lemma stroke_records_settings_at_release_witness :
  tool aliceDragging = pen
  /\ exists d,
       drawingHistory
         (run alice
            [PointerMove (mouseAt 28%float 36%float); ToolPicked eraser;
             ColorPicked "#00ff00"; SizePicked 9%float; PointerUp 1000 1000]
            aliceDragging)
       = drawingHistory aliceDragging ++ [d]
       /\ DrawingData.type d = erase_type
       /\ DrawingData.color d = "#00ff00".
Proof.
  destruct (stroke_records_settings_at_release alice
              (mouseAt 28%float 36%float) eraser "#00ff00" 9%float 1000 1000
              aliceDragging _ eq_refl eq_refl eq_refl eq_refl)
    as (d & Hh & Ht & Hc & _).
  exact (conj eq_refl (ex_intro _ d (conj Hh (conj Ht Hc)))).
Defined.

(** Alice clears after her red stroke and the publish is rejected. *)
Lemma failed_clear_stays_cleared_witness :
  isConnected aliceAfterRed = true
  /\ drawingHistory
       (stateOf (handleClearSettled Rejected (handleClear alice aliceAfterRed)))
     = []
  /\ toasts
       (stateOf (handleClearSettled Rejected (handleClear alice aliceAfterRed)))
     = toasts aliceAfterRed ++ [].
Proof.
  pose proof (failed_clear_stays_cleared alice Rejected aliceAfterRed _ _
                eq_refl eq_refl eq_refl) as (Hh & _ & _ & Ht).
  exact (conj eq_refl (conj Hh Ht)).
Defined.

(** Alice, holding the eraser, and Bob, holding the pen, start from the
    same canvas and receive a red stroke and a clear from a third
    participant. *)
Lemma same_messages_same_canvas_witness :
  canvasRef (setTool eraser aliceConnected) = canvasRef bobConnected
  /\ surface
       (run alice
          (map MessageReceived
             [Message.mk "draw" "carol" (DrawPayload redStroke);
              Message.mk "clear" "carol" EmptyPayload])
          (setTool eraser aliceConnected))
     = surface
         (run bob
            (map MessageReceived
               [Message.mk "draw" "carol" (DrawPayload redStroke);
                Message.mk "clear" "carol" EmptyPayload])
            bobConnected).
Proof.
  assert (Hall : Forall (fun m => Message.userId m <> AuthUser.id alice
                                  /\ Message.userId m <> AuthUser.id bob)
                   [Message.mk "draw" "carol" (DrawPayload redStroke);
                    Message.mk "clear" "carol" EmptyPayload])
    by (repeat constructor; discriminate).
  pose proof (same_messages_same_canvas alice bob _
                (setTool eraser aliceConnected) bobConnected eq_refl Hall)
    as (_ & Hs).
  exact (conj eq_refl Hs).
Defined.

End FurtherSessions.
